(** * Synthetic dataset generator of the sales analytics dashboard

    A shallow embedding of [python_code/data_generation.py]: the four
    generators [generate_sales_data], [generate_operations_data],
    [generate_financial_data] and [generate_customer_data], and the start
    of the script that seeds NumPy and calls them.

    Modelling choices.
    - Python [int] is [Z]; Python [float] is an exact rational [Q].  The
      sums and products of floats are taken exactly, so what is stated
      of an amount is a bound that leaves room for the error of a double,
      and the amounts of the concrete run that refutes a claim on
      rounding stay 1e-3 away from every rounding boundary.  The
      quotient of two integers, which the defect rate is rounded from,
      is the nearest double [b64], as [/] returns it.
    - A [datetime] at midnight is its proleptic Gregorian ordinal (what
      [date.toordinal] returns); a [timedelta] of whole days is a [Z].
    - The module [random] of the Python library is not part of the
      repository.  Its two primitives, [random()] and [_randbelow(n)], are
      operations of an abstract random source; [randint], [choice] and
      [uniform] are defined on top of them as the library defines them.
    - [np.sin] is a parameter, known only to stay within [-1, 1].
    - A call either returns a value and a new state of the random source,
      or raises. *)

From Stdlib Require Import ZArith QArith Qround Qabs Qpower List String Lia Lqa.
From Stdlib Require Import Sorted FinFun DecimalString DecimalZ.
Import ListNotations.

Local Open Scope Z_scope.

(** ** Python numbers *)

Definition float := Q.

(** [int(x)] on a float: truncation toward zero. *)
Definition int_of_float (x : float) : Z := Z.quot (Qnum x) (Zpos (Qden x)).

(** Nearest integer, ties to the even one: what [round] does on the exact
    value of its argument. *)
Definition round_half_even (x : Q) : Z :=
  let f := Qfloor x in
  match Qcompare (x - inject_Z f) (1 # 2) with
  | Lt => f
  | Gt => f + 1
  | Eq => if Z.even f then f else f + 1
  end.

(** [round(x, ndigits)] for [ndigits >= 0]. *)
Definition py_round (x : float) (ndigits : Z) : float :=
  let p := 10 ^ ndigits in
  (inject_Z (round_half_even (x * inject_Z p)) / inject_Z p)%Q.
Arguments py_round x%_Q ndigits%_Z.

(** Powers of two, of any integer exponent. *)
Definition pow2 (k : Z) : Q := Qpower 2 k.

(** The binary exponent of a positive rational [x]: the [e] with
    [2^e <= x < 2^(e+1)]. *)
Definition ilog2 (x : Q) : Z :=
  let c := Z.log2 (Qnum x) - Z.log2 (Zpos (Qden x)) in
  if Qle_bool (pow2 c) x then c else c - 1.

(** The double nearest to a positive rational, ties to the even
    significand: 53 significant bits, and no bit below [2^-1074].  What
    exceeds the largest double is out of the reach of the script. *)
Definition b64_pos (x : Q) : Q :=
  let q := Z.max (ilog2 x - 52) (-1074) in
  (inject_Z (round_half_even (x / pow2 q)) * pow2 q)%Q.

(** The double nearest to a rational. *)
Definition b64 (x : Q) : Q :=
  match Qnum x with
  | 0 => 0%Q
  | Zpos _ => b64_pos x
  | Zneg _ => (- b64_pos (- x))%Q
  end.

(** [str(i)] for an integer, as used by the f-strings. *)
Definition str (i : Z) : string := NilEmpty.string_of_int (Z.to_int i).

(** [range(n)]: empty when [n <= 0]. *)
Definition range (n : Z) : list Z := map Z.of_nat (seq 0 (Z.to_nat n)).

(** ** Calendar *)

Definition datetime_t := Z.

Definition is_leap (year : Z) : bool :=
  (year mod 4 =? 0) && (negb (year mod 100 =? 0) || (year mod 400 =? 0)).

Definition days_before_year (year : Z) : Z :=
  let y := year - 1 in y * 365 + y / 4 - y / 100 + y / 400.

Definition DAYS_BEFORE_MONTH : list Z :=
  [0; 0; 31; 59; 90; 120; 151; 181; 212; 243; 273; 304; 334].

Definition days_before_month (year month : Z) : Z :=
  nth (Z.to_nat month) DAYS_BEFORE_MONTH 0
  + (if (2 <? month) && is_leap year then 1 else 0).

(** [datetime(year, month, day)], as an ordinal. *)
Definition datetime (year month day : Z) : datetime_t :=
  days_before_year year + days_before_month year month + day.

Definition timedelta (days : Z) : Z := days.

(** [pd.date_range(start, end, freq='D')]: every day from [start] to [end],
    both included. *)
Definition date_range_D (start stop : datetime_t) : list datetime_t :=
  map (fun k => start + k) (range (stop - start + 1)).

(** [pd.date_range(start, end, freq='MS')]: the first day of every month
    that lies between [start] and [end], both included.  [start] is given
    by its year and month since the candidates are counted from there. *)
Definition date_range_MS (y0 m0 d0 y1 m1 d1 : Z) : list datetime_t :=
  let start := datetime y0 m0 d0 in
  let stop := datetime y1 m1 d1 in
  filter (fun d => (start <=? d) && (d <=? stop))
    (map (fun k => let m := m0 - 1 + k in datetime (y0 + m / 12) (m mod 12 + 1) 1)
         (range (12 * (y1 - y0) + m1 - m0 + 1))).

(** ** Data frames *)

(** [pd.DataFrame(data)] on a list of dicts: the columns are the keys of
    the dicts in order of first appearance, so there is none when the list
    is empty.  Every dict of one generator has the same keys. *)
Record DataFrame (A : Type) := mkDataFrame {
  columns : list string;
  rows : list A
}.
Arguments mkDataFrame {A} _ _.
Arguments columns {A} _.
Arguments rows {A} _.

Definition DataFrame_of {A : Type} (keys : list string) (data : list A) : DataFrame A :=
  {| columns := match data with [] => [] | _ :: _ => keys end;
     rows := data |}.

Module Sales.
Record t := mk {
  Order_ID : string;
  Order_Date : datetime_t;
  Ship_Date : datetime_t;
  Category : string;
  Sub_Category : string;
  Product_Name : string;
  Sales : float;
  Quantity : Z;
  Discount : float;
  Profit : float;
  Region : string;
  Segment : string;
  Customer_ID : string;
  State : string
}.
Definition keys : list string :=
  ["Order_ID"; "Order_Date"; "Ship_Date"; "Category"; "Sub_Category";
   "Product_Name"; "Sales"; "Quantity"; "Discount"; "Profit"; "Region";
   "Segment"; "Customer_ID"; "State"]%string.
End Sales.

Module Operations.
Record t := mk {
  Date : datetime_t;
  Shift : string;
  Units_Produced : Z;
  Defects : Z;
  Defect_Rate : float;
  Downtime_Minutes : Z;
  Efficiency : float;
  Energy_Used : Z;
  Labor_Hours : Z
}.
Definition keys : list string :=
  ["Date"; "Shift"; "Units_Produced"; "Defects"; "Defect_Rate";
   "Downtime_Minutes"; "Efficiency"; "Energy_Used"; "Labor_Hours"]%string.
End Operations.

Module Financial.
Record t := mk {
  Month : datetime_t;
  Revenue : float;
  COGS : float;
  Operating_Expenses : float;
  Gross_Profit : float;
  Net_Profit : float;
  Budget_Revenue : float;
  Cash_Flow : float
}.
Definition keys : list string :=
  ["Month"; "Revenue"; "COGS"; "Operating_Expenses"; "Gross_Profit";
   "Net_Profit"; "Budget_Revenue"; "Cash_Flow"]%string.
End Financial.

Module Customer.
Record t := mk {
  Customer_ID : string;
  Signup_Date : datetime_t;
  Total_Purchases : Z;
  Avg_Order_Value : float;
  Lifetime_Value : float;
  Days_Since_Last_Purchase : Z;
  Churned : Z;
  Satisfaction_Score : Z;
  Support_Tickets : Z;
  Segment : string
}.
Definition keys : list string :=
  ["Customer_ID"; "Signup_Date"; "Total_Purchases"; "Avg_Order_Value";
   "Lifetime_Value"; "Days_Since_Last_Purchase"; "Churned";
   "Satisfaction_Score"; "Support_Tickets"; "Segment"]%string.
End Customer.

(** ** Outcomes and the random source *)

Inductive exn := ValueError | IndexError | KeyError | ZeroDivisionError.

Inductive outcome (A : Type) :=
| Returns (a : A)
| Raises (e : exn).
Arguments Returns {A} _.
Arguments Raises {A} _.

(** The state of the generator behind the module [random], with the two
    primitives every other function of the module is built on. *)
Record RandomSource := mkRandomSource {
  rstate : Type;
  random : rstate -> float * rstate;
  randbelow : Z -> rstate -> Z * rstate
}.

(** What the library promises of them: [random()] lies in [0, 1) and
    [_randbelow(n)] in [0, n). *)
Definition lawful (R : RandomSource) : Prop :=
  (forall s, (0 <= fst (random R s) /\ fst (random R s) < 1)%Q) /\
  (forall n s, 0 < n -> 0 <= fst (randbelow R n s) < n).

(** What is known of [np.sin]. *)
Definition sine_bounded (np_sin : float -> float) : Prop :=
  forall x, (-1 <= np_sin x /\ np_sin x <= 1)%Q.

(** [np.pi], the double nearest to pi. *)
Definition np_pi : float := (884279719003555 # 281474976710656)%Q.

Section Generator.

Variable R : RandomSource.
Variable np_sin : float -> float.

(** ** The monad of a call: state of the random source, or an exception *)

Definition M (A : Type) : Type := rstate R -> outcome (A * rstate R).

Definition ret {A : Type} (a : A) : M A := fun s => Returns (a, s).

Definition raise {A : Type} (e : exn) : M A := fun _ => Raises e.

Definition bind {A B : Type} (m : M A) (f : A -> M B) : M B :=
  fun s => match m s with
           | Returns (a, s') => f a s'
           | Raises e => Raises e
           end.

Notation "x <- m ;; k" := (bind m (fun x => k))
  (at level 100, m at next level, right associativity).

(** A list comprehension, or a loop that appends one item per round. *)
Fixpoint mapM {A B : Type} (f : A -> M B) (l : list A) : M (list B) :=
  match l with
  | [] => ret []
  | x :: l' => y <- f x ;; ys <- mapM f l' ;; ret (y :: ys)
  end.

(** ** The functions of [random] the script calls *)

Definition random_random : M float :=
  fun s => Returns (random R s).

Definition random_randbelow (n : Z) : M Z :=
  fun s => Returns (randbelow R n s).

(** [randint(a, b)] is [randrange(a, b + 1)]. *)
Definition randint (a b : Z) : M Z :=
  let width := b + 1 - a in
  if 0 <? width then k <- random_randbelow width ;; ret (a + k)
  else raise ValueError.

Definition choice {A : Type} (seq : list A) : M A :=
  match seq with
  | [] => raise IndexError
  | x :: _ =>
      k <- random_randbelow (Z.of_nat (List.length seq)) ;;
      ret (nth (Z.to_nat k) seq x)
  end.

Definition uniform (a b : float) : M float :=
  u <- random_random ;; ret (a + (b - a) * u)%Q.
Arguments uniform (a b)%_Q.

(** ** Subscripts and division *)

(** [seq[i]]: a negative index counts from the end. *)
Definition getitem {A : Type} (seq : list A) (i : Z) : M A :=
  let j := if i <? 0 then Z.of_nat (List.length seq) + i else i in
  if j <? 0 then raise IndexError
  else match nth_error seq (Z.to_nat j) with
       | Some x => ret x
       | None => raise IndexError
       end.

Fixpoint dict_get {V : Type} (d : list (string * V)) (k : string) : M V :=
  match d with
  | [] => raise KeyError
  | (k', v) :: d' => if String.eqb k k' then ret v else dict_get d' k
  end.

(** [a / b] on two integers: the double nearest to the quotient. *)
Definition truediv (a b : Z) : M float :=
  if b =? 0 then raise ZeroDivisionError
  else ret (b64 (inject_Z a / inject_Z b)).

(** ** Sales *)

Definition generate_sales_data (n : Z) : M (DataFrame Sales.t) :=
  let start := datetime 2022 1 1 in
  dates <- mapM (fun _ => k <- randint 0 1095 ;; ret (start + timedelta k))
                (range n) ;;
  let categories := ["Technology"; "Furniture"; "Office Supplies"]%string in
  let subcats :=
    [("Technology", ["Phones"; "Computers"; "Accessories"; "Copiers"]);
     ("Furniture", ["Chairs"; "Tables"; "Bookcases"; "Furnishings"]);
     ("Office Supplies", ["Paper"; "Binders"; "Art"; "Storage"; "Labels"])]%string in
  let regions := ["East"; "West"; "Central"; "South"]%string in
  let segments := ["Consumer"; "Corporate"; "Home Office"]%string in
  data <- mapM (fun i =>
    cat <- choice categories ;;
    subs <- dict_get subcats cat ;;
    subcat <- choice subs ;;
    region <- choice regions ;;
    segment <- choice segments ;;
    price <- (if String.eqb cat "Technology" then uniform 50 2000
              else if String.eqb cat "Furniture" then uniform 100 1500
              else uniform 5 300) ;;
    qty <- randint 1 10 ;;
    discount <- choice [0; 0.1; 0.15; 0.2; 0.25]%Q ;;
    let sales := (price * inject_Z qty * (1 - discount))%Q in
    margin <- uniform 0.05 0.35 ;;
    let profit := (sales * margin)%Q in
    order_date <- getitem dates i ;;
    shipped <- getitem dates i ;;
    ship_days <- randint 1 7 ;;
    product_no <- randint 100 999 ;;
    customer_no <- randint 1000 9999 ;;
    state <- choice ["California"; "Texas"; "New York"; "Florida";
                     "Illinois"; "Pennsylvania"; "Ohio"; "Georgia"]%string ;;
    ret {| Sales.Order_ID := "ORD-" ++ str (i + 1000);
           Sales.Order_Date := order_date;
           Sales.Ship_Date := shipped + timedelta ship_days;
           Sales.Category := cat;
           Sales.Sub_Category := subcat;
           Sales.Product_Name := subcat ++ " " ++ str product_no;
           Sales.Sales := py_round sales 2;
           Sales.Quantity := qty;
           Sales.Discount := discount;
           Sales.Profit := py_round profit 2;
           Sales.Region := region;
           Sales.Segment := segment;
           Sales.Customer_ID := "CUST-" ++ str customer_no;
           Sales.State := state |}%string) (range n) ;;
  ret (DataFrame_of Sales.keys data).

(** ** Operations *)

Definition generate_operations_data (n : Z) : M (DataFrame Operations.t) :=
  let dates := date_range_D (datetime 2023 1 1) (datetime 2024 12 31) in
  data <- mapM (fun ds : datetime_t * string =>
    let (date, shift) := ds in
    production <- randint 800 1200 ;;
    rate <- uniform 0.01 0.05 ;;
    let defects := int_of_float (inject_Z production * rate)%Q in
    downtime <- randint 0 120 ;;
    defect_rate <- truediv defects production ;;
    efficiency <- uniform 0.75 0.98 ;;
    energy <- randint 500 800 ;;
    labor <- randint 150 200 ;;
    ret {| Operations.Date := date;
           Operations.Shift := shift;
           Operations.Units_Produced := production;
           Operations.Defects := defects;
           Operations.Defect_Rate := py_round defect_rate 4;
           Operations.Downtime_Minutes := downtime;
           Operations.Efficiency := py_round efficiency 3;
           Operations.Energy_Used := energy;
           Operations.Labor_Hours := labor |})
    (flat_map (fun date => map (fun shift => (date, shift))
                               ["Morning"; "Evening"; "Night"]%string) dates) ;;
  ret (DataFrame_of Operations.keys data).

(** ** Financial *)

(** The values of one round of the loop before they are rounded. *)
Record financial_raw := mkRaw {
  raw_revenue : float;
  raw_cogs : float;
  raw_opex : float;
  raw_budget : float;
  raw_cash : float
}.

Definition financial_round (month : datetime_t) (x : financial_raw) : Financial.t :=
  let revenue := raw_revenue x in
  let cogs := raw_cogs x in
  let opex := raw_opex x in
  let profit := (revenue - cogs - opex)%Q in
  {| Financial.Month := month;
     Financial.Revenue := py_round revenue 2;
     Financial.COGS := py_round cogs 2;
     Financial.Operating_Expenses := py_round opex 2;
     Financial.Gross_Profit := py_round (revenue - cogs) 2;
     Financial.Net_Profit := py_round profit 2;
     Financial.Budget_Revenue := py_round (raw_budget x) 2;
     Financial.Cash_Flow := py_round (raw_cash x) 2 |}.

Definition financial_draw (i : Z) : M financial_raw :=
  let base_revenue := 500000%Q in
  let trend := (base_revenue * (1 + 0.015 * inject_Z i))%Q in
  let seasonal :=
    (trend * (1 + 0.1 * np_sin (2 * np_pi * inject_Z i / 12)))%Q in
  noise <- uniform (-20000) 30000 ;;
  let revenue := (seasonal + noise)%Q in
  cogs_share <- uniform 0.55 0.65 ;;
  let cogs := (revenue * cogs_share)%Q in
  opex_share <- uniform 0.20 0.30 ;;
  let opex := (revenue * opex_share)%Q in
  let profit := (revenue - cogs - opex)%Q in
  budget_factor <- uniform 0.9 1.1 ;;
  cash_factor <- uniform 0.8 1.2 ;;
  ret {| raw_revenue := revenue;
         raw_cogs := cogs;
         raw_opex := opex;
         raw_budget := (revenue * budget_factor)%Q;
         raw_cash := (profit * cash_factor)%Q |}.

(** [enumerate(months)]. *)
Definition enumerate {A : Type} (l : list A) : list (Z * A) :=
  combine (range (Z.of_nat (List.length l))) l.

Definition financial_months : list datetime_t :=
  date_range_MS 2022 1 1 2024 12 31.

Definition generate_financial_data : M (DataFrame Financial.t) :=
  let months := financial_months in
  data <- mapM (fun im : Z * datetime_t =>
    let (i, month) := im in
    x <- financial_draw i ;;
    ret (financial_round month x)) (enumerate months) ;;
  ret (DataFrame_of Financial.keys data).

(** ** Customers *)

Definition generate_customer_data (n : Z) : M (DataFrame Customer.t) :=
  data <- mapM (fun i =>
    signup_days <- randint 0 1460 ;;
    let signup_date := datetime 2020 1 1 + timedelta signup_days in
    purchases <- randint 1 50 ;;
    avg_order <- uniform 50 500 ;;
    let lifetime_value := (inject_Z purchases * avg_order)%Q in
    days_since_last <- randint 0 365 ;;
    let churned := if 180 <? days_since_last then 1 else 0 in
    satisfaction <- randint 1 5 ;;
    tickets <- randint 0 10 ;;
    segment <- choice ["High Value"; "Medium Value"; "Low Value"]%string ;;
    ret {| Customer.Customer_ID := "CUST-" ++ str (i + 1000);
           Customer.Signup_Date := signup_date;
           Customer.Total_Purchases := purchases;
           Customer.Avg_Order_Value := py_round avg_order 2;
           Customer.Lifetime_Value := py_round lifetime_value 2;
           Customer.Days_Since_Last_Purchase := days_since_last;
           Customer.Churned := churned;
           Customer.Satisfaction_Score := satisfaction;
           Customer.Support_Tickets := tickets;
           Customer.Segment := segment |}%string) (range n) ;;
  ret (DataFrame_of Customer.keys data).

(** ** The script *)

(** The state of the process: the generator of NumPy, which
    [np.random.seed] sets, and the generator of [random], which the
    interpreter seeds from the operating system when the module is
    imported. *)
Record process := mkProcess {
  np_random_state : Z;
  random_state : rstate R
}.

(** [np.random.seed(seed)] on an integer: NumPy takes a seed from 0 to
    [2^32 - 1] and raises [ValueError] on any other. *)
Definition np_random_seed (seed : Z) (p : process) : outcome process :=
  if (0 <=? seed) && (seed <? 4294967296)
  then Returns {| np_random_state := seed; random_state := random_state p |}
  else Raises ValueError.

Record datasets := mkDatasets {
  sales_df : DataFrame Sales.t;
  operations_df : DataFrame Operations.t;
  financial_df : DataFrame Financial.t;
  customer_df : DataFrame Customer.t
}.

(** The script from its first statement to the four data frames it then
    writes; [seed] is the literal 42 of the source. *)
Definition script (seed : Z) (p0 : process) : outcome (datasets * process) :=
  match np_random_seed seed p0 with
  | Raises e => Raises e
  | Returns p =>
      match (s <- generate_sales_data 5000 ;;
             o <- generate_operations_data 2000 ;;
             f <- generate_financial_data ;;
             c <- generate_customer_data 1500 ;;
             ret {| sales_df := s; operations_df := o;
                    financial_df := f; customer_df := c |}) (random_state p) with
      | Returns (d, s') =>
          Returns (d, {| np_random_state := np_random_state p;
                         random_state := s' |})
      | Raises e => Raises e
      end
  end.

End Generator.

(** ** A scripted random source *)

(** The state is the list of the raw integers still to be handed out, one
    per call; when it is used up the source goes on with zeros.  [random()]
    turns a raw integer into a 53-bit fraction, as the Mersenne Twister of
    the library does, and [_randbelow(n)] reduces it below [n]: every
    finite run of the library's generator is the run of some script. *)
Definition tape_next (s : list Z) : Z * list Z :=
  match s with
  | [] => (0, [])
  | w :: s' => (w, s')
  end.

Definition tape : RandomSource :=
  {| rstate := list Z;
     random := fun s =>
       let (w, s') := tape_next s in
       ((inject_Z (w mod 2 ^ 53) / inject_Z (2 ^ 53))%Q, s');
     randbelow := fun n s =>
       let (w, s') := tape_next s in (w mod n, s') |}.

(** ** A reference sine *)

(** Fixed-point numbers with 60 fractional bits. *)
Definition fx_one : Z := 2 ^ 60.

Definition fx_mul (a b : Z) : Z := a * b / fx_one.

(** The Taylor polynomial of the sine, [terms] terms of it in Horner form,
    where [x2] is the square of the argument and [k] the index of the
    first term. *)
Fixpoint sin_horner (x2 : Z) (k : Z) (terms : nat) : Z :=
  match terms with
  | O => fx_one
  | S t => fx_one - fx_mul x2 (sin_horner x2 (k + 1) t) / ((2 * k) * (2 * k + 1))
  end.

(** The argument is first brought back to [-pi, pi); the result is cut to
    [-1, 1], which the polynomial leaves by less than 1e-11. *)
Definition sin_ref (x : float) : float :=
  let turn := (2 * np_pi)%Q in
  let r := (x - inject_Z (Qfloor (x / turn + (1 # 2))) * turn)%Q in
  let r60 := Qfloor (r * inject_Z fx_one) in
  let y := fx_mul r60 (sin_horner (fx_mul r60 r60) 1 12) in
  let y := Z.max (- fx_one) (Z.min fx_one y) in
  (inject_Z y / inject_Z fx_one)%Q.

(** ** Total correctness of a call *)

(** [returns m s Q]: run from the state [s], the call [m] raises nothing,
    and the value it returns and the state it leaves satisfy [Q]. *)
Definition returns {R : RandomSource} {A : Type}
    (m : M R A) (s : rstate R) (Q : A -> rstate R -> Prop) : Prop :=
  match m s with
  | Returns (a, s') => Q a s'
  | Raises _ => False
  end.

(** ** What the claims say of a row *)

Definition sales_row_ok (i : Z) (r : Sales.t) : Prop :=
  Sales.Order_ID r = ("ORD-" ++ str (i + 1000))%string /\
  1 <= Sales.Ship_Date r - Sales.Order_Date r <= 7 /\
  In (Sales.Discount r) [0; 0.1; 0.15; 0.2; 0.25]%Q.

Definition customer_row_ok (i : Z) (r : Customer.t) : Prop :=
  Customer.Customer_ID r = ("CUST-" ++ str (i + 1000))%string /\
  0 <= Customer.Days_Since_Last_Purchase r <= 365 /\
  Customer.Churned r = (if 180 <? Customer.Days_Since_Last_Purchase r then 1 else 0).

Definition operations_row_ok (ds : datetime_t * string) (r : Operations.t) : Prop :=
  Operations.Date r = fst ds /\
  Operations.Shift r = snd ds /\
  800 <= Operations.Units_Produced r <= 1200 /\
  0 <= Operations.Defects r <= Operations.Units_Produced r /\
  Operations.Defect_Rate r =
    py_round (b64 (inject_Z (Operations.Defects r)
                   / inject_Z (Operations.Units_Produced r))) 4.

Definition financial_raw_ok (x : financial_raw) : Prop :=
  (430000 <= raw_revenue x /\
   raw_cogs x <= 0.65 * raw_revenue x /\
   raw_opex x <= 0.30 * raw_revenue x)%Q.

Definition financial_row_ok (im : Z * datetime_t) (r : Financial.t) : Prop :=
  exists x, r = financial_round (snd im) x /\ financial_raw_ok x.

(** The invariant of the financial rows as the specification words it:
    both profits are the exact combination of the stored components. *)
Definition profits_exact (r : Financial.t) : Prop :=
  (Financial.Gross_Profit r == Financial.Revenue r - Financial.COGS r /\
   Financial.Net_Profit r ==
     Financial.Revenue r - Financial.COGS r - Financial.Operating_Expenses r)%Q.

(** The first days of the months of 2022, 2023 and 2024. *)
Definition months_2022_2024 : list datetime_t :=
  flat_map (fun year => map (fun month => datetime year month 1)
                            [1; 2; 3; 4; 5; 6; 7; 8; 9; 10; 11; 12])
           [2022; 2023; 2024].

(** ** What the loops also fix of a row *)

(** The price range of a category, as the chain of tests of the sales
    loop selects it. *)
Definition price_range (cat : string) : float * float :=
  if String.eqb cat "Technology" then (50, 2000)%Q
  else if String.eqb cat "Furniture" then (100, 1500)%Q
  else (5, 300)%Q.

Definition sales_category_ok (r : Sales.t) : Prop :=
  (Sales.Category r = "Technology" /\
   In (Sales.Sub_Category r) ["Phones"; "Computers"; "Accessories"; "Copiers"])%string \/
  (Sales.Category r = "Furniture" /\
   In (Sales.Sub_Category r) ["Chairs"; "Tables"; "Bookcases"; "Furnishings"])%string \/
  (Sales.Category r = "Office Supplies" /\
   In (Sales.Sub_Category r) ["Paper"; "Binders"; "Art"; "Storage"; "Labels"])%string.

(** The amounts of a sales row come from a unit price in the range of the
    category and a margin between 5% and 35%. *)
Definition sales_row_priced (r : Sales.t) : Prop :=
  exists price margin : float,
    (fst (price_range (Sales.Category r)) <= price /\
     price <= snd (price_range (Sales.Category r)) /\
     0.05 <= margin /\ margin <= 0.35)%Q /\
    Sales.Sales r
      = py_round (price * inject_Z (Sales.Quantity r) * (1 - Sales.Discount r)) 2 /\
    Sales.Profit r
      = py_round (price * inject_Z (Sales.Quantity r) * (1 - Sales.Discount r)
                  * margin) 2.

Definition sales_row_full (i : Z) (r : Sales.t) : Prop :=
  sales_row_ok i r /\
  datetime 2022 1 1 <= Sales.Order_Date r <= datetime 2022 1 1 + 1095 /\
  sales_category_ok r /\
  (exists k, 100 <= k <= 999 /\
     Sales.Product_Name r = (Sales.Sub_Category r ++ " " ++ str k)%string) /\
  1 <= Sales.Quantity r <= 10 /\
  In (Sales.Region r) ["East"; "West"; "Central"; "South"]%string /\
  In (Sales.Segment r) ["Consumer"; "Corporate"; "Home Office"]%string /\
  In (Sales.State r) ["California"; "Texas"; "New York"; "Florida";
                      "Illinois"; "Pennsylvania"; "Ohio"; "Georgia"]%string /\
  (exists k, 1000 <= k <= 9999 /\
     Sales.Customer_ID r = ("CUST-" ++ str k)%string) /\
  sales_row_priced r.

Definition operations_row_full (ds : datetime_t * string) (r : Operations.t) : Prop :=
  operations_row_ok ds r /\
  8 <= Operations.Defects r <= 60 /\
  20 * Operations.Defects r <= Operations.Units_Produced r /\
  Operations.Units_Produced r < 100 * (Operations.Defects r + 1) /\
  0 <= Operations.Downtime_Minutes r <= 120 /\
  (exists e : float,
     (0.75 <= e /\ e <= 0.98)%Q /\ Operations.Efficiency r = py_round e 3) /\
  500 <= Operations.Energy_Used r <= 800 /\
  150 <= Operations.Labor_Hours r <= 200.

(** The trend of the month of index [i]. *)
Definition revenue_trend (i : Z) : float := (500000 * (1 + 0.015 * inject_Z i))%Q.

Definition financial_raw_full (i : Z) (x : financial_raw) : Prop :=
  (0.9 * revenue_trend i - 20000 <= raw_revenue x /\
   raw_revenue x <= 1.1 * revenue_trend i + 30000 /\
   0.55 * raw_revenue x <= raw_cogs x /\
   raw_cogs x <= 0.65 * raw_revenue x /\
   0.20 * raw_revenue x <= raw_opex x /\
   raw_opex x <= 0.30 * raw_revenue x /\
   0.9 * raw_revenue x <= raw_budget x /\
   raw_budget x <= 1.1 * raw_revenue x /\
   0.8 * (raw_revenue x - raw_cogs x - raw_opex x) <= raw_cash x /\
   raw_cash x <= 1.2 * (raw_revenue x - raw_cogs x - raw_opex x))%Q.

Definition financial_row_full (im : Z * datetime_t) (r : Financial.t) : Prop :=
  0 <= fst im /\
  exists x, r = financial_round (snd im) x /\ financial_raw_full (fst im) x.

Definition customer_row_full (i : Z) (r : Customer.t) : Prop :=
  customer_row_ok i r /\
  datetime 2020 1 1 <= Customer.Signup_Date r <= datetime 2020 1 1 + 1460 /\
  1 <= Customer.Total_Purchases r <= 50 /\
  (exists avg_order : float,
     (50 <= avg_order /\ avg_order <= 500)%Q /\
     Customer.Avg_Order_Value r = py_round avg_order 2 /\
     Customer.Lifetime_Value r
       = py_round (inject_Z (Customer.Total_Purchases r) * avg_order) 2) /\
  1 <= Customer.Satisfaction_Score r <= 5 /\
  0 <= Customer.Support_Tickets r <= 10 /\
  In (Customer.Segment r) ["High Value"; "Medium Value"; "Low Value"]%string.

(** ** The tables and the dashboard that read the files *)

(** [a > b] on two floats. *)
Definition Qgt_bool (a b : float) : bool := negb (Qle_bool a b).
Arguments Qgt_bool (a b)%_Q.

(** [Series.min()] and [Series.max()] of a column without missing values;
    of a column of no value they are NaN, here [None]. *)
Fixpoint series_min (col_data : list float) : option float :=
  match col_data with
  | [] => None
  | x :: l =>
      match series_min l with
      | None => Some x
      | Some m => Some (if Qle_bool x m then x else m)
      end
  end.

Fixpoint series_max (col_data : list float) : option float :=
  match col_data with
  | [] => None
  | x :: l =>
      match series_max l with
      | None => Some x
      | Some m => Some (if Qle_bool m x then x else m)
      end
  end.

(** [get_color] of the summary table.  When the column has no value both
    extremes are NaN, every comparison with the normalized value fails and
    the last branch answers. *)
Definition get_color (val : float) (col_data : list float) : string :=
  match series_min col_data, series_max col_data with
  | Some min_val, Some max_val =>
      let normalized :=
        if negb (Qeq_bool max_val min_val)
        then ((val - min_val) / (max_val - min_val))%Q
        else 0.5%Q in
      if Qgt_bool normalized 0.66 then "#d4edda"
      else if Qgt_bool normalized 0.33 then "#fff3cd"
      else "#f8d7da"
  | _, _ => "#f8d7da"
  end%string.

(** The colours of one column: [[get_color(val, summary[col]) for val in
    summary[col]]]. *)
Definition column_colors (col_data : list float) : list string :=
  map (fun val => get_color val col_data) col_data.

(** The three colours of [get_color], from red to green. *)
Definition color_rank (c : string) : nat :=
  (if String.eqb c "#d4edda" then 2 else if String.eqb c "#fff3cd" then 1 else 0)%nat.

(** The lambda that colours the profit of the detailed table. *)
Definition profit_color (x : float) : string :=
  if Qgt_bool x 0 then "#d4edda"%string else "#f8d7da"%string.

(** The figures of the what-if panel of the dashboard, from the two sums
    over the sales file and the three sliders. *)
Record what_if_t := mkWhatIf {
  new_sales : float;
  new_cost : float;
  new_profit : float;
  sales_delta : float;
  profit_delta : float;
  margin : float;
  base_margin : float;
  margin_delta : float
}.

Definition what_if (base_sales base_profit : float)
    (price_change volume_change cost_change : Z) : what_if_t :=
  let base_cost := (base_sales - base_profit)%Q in
  let new_price_mult := (1 + inject_Z price_change / 100)%Q in
  let new_volume_mult := (1 + inject_Z volume_change / 100)%Q in
  let new_cost_mult := (1 + inject_Z cost_change / 100)%Q in
  let new_sales := (base_sales * new_price_mult * new_volume_mult)%Q in
  let new_cost := (base_cost * new_cost_mult * new_volume_mult)%Q in
  let new_profit := (new_sales - new_cost)%Q in
  let margin :=
    if Qgt_bool new_sales 0 then (new_profit / new_sales * 100)%Q else 0%Q in
  let base_margin := (base_profit / base_sales * 100)%Q in
  {| new_sales := new_sales;
     new_cost := new_cost;
     new_profit := new_profit;
     sales_delta := (new_sales - base_sales)%Q;
     profit_delta := (new_profit - base_profit)%Q;
     margin := margin;
     base_margin := base_margin;
     margin_delta := (margin - base_margin)%Q |}.
Arguments what_if (base_sales base_profit)%_Q
  (price_change volume_change cost_change)%_Z.

(** * Proofs *)

(** ** The calculus of [returns] *)

Section Calculus.

Variable R : RandomSource.
Hypothesis R_ok : lawful R.

Lemma returns_elim {A : Type} (m : M R A) s (Q : A -> rstate R -> Prop) :
  returns m s Q -> exists a s', m s = Returns (a, s') /\ Q a s'.
Proof.
  unfold returns. destruct (m s) as [[a s']|e]; [|tauto].
  intro H. now exists a, s'.
Qed.

Lemma returns_mono {A : Type} (m : M R A) s (P Q : A -> rstate R -> Prop) :
  returns m s P -> (forall a s', P a s' -> Q a s') -> returns m s Q.
Proof.
  unfold returns. destruct (m s) as [[a s']|e]; auto.
Qed.

Lemma returns_ret {A : Type} (a : A) s (Q : A -> rstate R -> Prop) :
  Q a s -> returns (ret R a) s Q.
Proof. trivial. Qed.

Lemma returns_bind {A B : Type} (m : M R A) (f : A -> M R B) s
    (Q : B -> rstate R -> Prop) :
  returns m s (fun a s' => returns (f a) s' Q) -> returns (bind R m f) s Q.
Proof.
  unfold returns, bind. destruct (m s) as [[a s']|e]; auto.
Qed.

Lemma returns_randint a b s (Q : Z -> rstate R -> Prop) :
  a <= b -> (forall k s', a <= k <= b -> Q k s') ->
  returns (randint R a b) s Q.
Proof.
  intros Hab HQ. unfold randint.
  destruct (Z.ltb_spec 0 (b + 1 - a)) as [Hw|Hw]; [|lia].
  apply returns_bind. unfold returns, random_randbelow.
  destruct R_ok as [_ Hbelow]. specialize (Hbelow (b + 1 - a) s Hw).
  destruct (randbelow R (b + 1 - a) s) as [k s']. simpl in *.
  apply HQ. lia.
Qed.

Lemma returns_choice {A : Type} (seq : list A) s (Q : A -> rstate R -> Prop) :
  seq <> [] -> (forall x s', In x seq -> Q x s') ->
  returns (choice R seq) s Q.
Proof.
  intros Hne HQ. destruct seq as [|x seq']; [congruence|].
  unfold choice. apply returns_bind. unfold returns, random_randbelow.
  destruct R_ok as [_ Hbelow].
  specialize (Hbelow (Z.of_nat (List.length (x :: seq'))) s).
  destruct (randbelow R (Z.of_nat (List.length (x :: seq'))) s) as [k s'].
  simpl fst in Hbelow. apply HQ. apply nth_In.
  assert (0 < Z.of_nat (List.length (x :: seq'))) by (simpl; lia). lia.
Qed.

Lemma returns_uniform (a b : float) s (Q : float -> rstate R -> Prop) :
  (forall u s', (0 <= u)%Q -> (u < 1)%Q -> Q (a + (b - a) * u)%Q s') ->
  returns (uniform R a b) s Q.
Proof.
  intros HQ. unfold uniform. apply returns_bind.
  unfold returns, random_random.
  destruct R_ok as [Hrandom _]. specialize (Hrandom s).
  destruct (random R s) as [u s']. simpl in *. apply HQ; tauto.
Qed.

Lemma returns_getitem {A : Type} (seq : list A) i s (Q : A -> rstate R -> Prop) :
  0 <= i < Z.of_nat (List.length seq) ->
  (forall x, nth_error seq (Z.to_nat i) = Some x -> Q x s) ->
  returns (getitem R seq i) s Q.
Proof.
  intros Hi HQ. unfold getitem.
  destruct (Z.ltb_spec i 0) as [?|_]; [lia|].
  destruct (Z.ltb_spec i 0) as [?|_]; [lia|].
  destruct (nth_error seq (Z.to_nat i)) as [x|] eqn:E.
  - apply returns_ret. now apply HQ.
  - apply nth_error_None in E. lia.
Qed.

Lemma returns_truediv a b s (Q : float -> rstate R -> Prop) :
  b <> 0 -> Q (b64 (inject_Z a / inject_Z b)) s -> returns (truediv R a b) s Q.
Proof.
  intros Hb HQ. unfold truediv.
  destruct (Z.eqb_spec b 0); [contradiction|]. now apply returns_ret.
Qed.

(** A loop returns when each of its rounds does, and what holds of every
    round holds of the items it collects, in order. *)
Lemma returns_mapM {A B : Type} (f : A -> M R B) (P : A -> B -> Prop) l :
  (forall x s, In x l -> returns (f x) s (fun y _ => P x y)) ->
  forall s, returns (mapM R f l) s (fun ys _ => Forall2 P l ys).
Proof.
  induction l as [|x l IH]; intros Hf s; simpl.
  - apply returns_ret. constructor.
  - apply returns_bind. eapply returns_mono; [apply Hf; now left|].
    intros y s1 Hy. apply returns_bind.
    eapply returns_mono; [apply IH; intros; apply Hf; now right|].
    intros ys s2 Hys. apply returns_ret. now constructor.
Qed.

End Calculus.

Lemma range_nonpos n : n <= 0 -> range n = [].
Proof.
  intros H. unfold range. now replace (Z.to_nat n) with 0%nat by lia.
Qed.

Lemma range_length n : List.length (range n) = Z.to_nat n.
Proof. unfold range. now rewrite length_map, length_seq. Qed.

Lemma range_In n i : In i (range n) <-> 0 <= i < n.
Proof.
  unfold range. rewrite in_map_iff. split.
  - intros (k & <- & Hk). apply in_seq in Hk. lia.
  - intros Hi. exists (Z.to_nat i). split; [lia|]. apply in_seq. lia.
Qed.

Lemma range_NoDup n : NoDup (range n).
Proof.
  unfold range. apply Injective_map_NoDup; [|apply seq_NoDup].
  intros a b. lia.
Qed.

(** ** Rounding *)

Lemma inject_Z_minus x y : inject_Z (x - y) = (inject_Z x - inject_Z y)%Q.
Proof.
  unfold Z.sub. now rewrite inject_Z_plus, inject_Z_opp.
Qed.

Lemma round_half_even_near y :
  (inject_Z (round_half_even y) - (1 # 2) <= y /\
   y <= inject_Z (round_half_even y) + (1 # 2))%Q.
Proof.
  unfold round_half_even.
  pose proof (Qfloor_le y) as Hlo. pose proof (Qlt_floor y) as Hhi.
  rewrite inject_Z_plus in Hhi. change (inject_Z 1) with 1%Q in Hhi.
  destruct (Qcompare_spec (y - inject_Z (Qfloor y)) (1 # 2)) as [E|E|E].
  - destruct (Z.even (Qfloor y)).
    + split; lra.
    + rewrite inject_Z_plus. change (inject_Z 1) with 1%Q. split; lra.
  - split; lra.
  - rewrite inject_Z_plus. change (inject_Z 1) with 1%Q. split; lra.
Qed.

Lemma round_half_even_ge k y : (inject_Z k <= y)%Q -> k <= round_half_even y.
Proof.
  intro H. destruct (round_half_even_near y) as [_ Hhi].
  destruct (Z_le_gt_dec k (round_half_even y)) as [|Hgt]; [assumption|].
  assert (Hq : (inject_Z (round_half_even y + 1) <= inject_Z k)%Q)
    by (rewrite <- Zle_Qle; lia).
  rewrite inject_Z_plus in Hq. change (inject_Z 1) with 1%Q in Hq. lra.
Qed.

(** Rounding to cents keeps a value above a whole bound above it. *)
Lemma py_round2_ge k x : (inject_Z k <= x)%Q -> (inject_Z k <= py_round x 2)%Q.
Proof.
  intro H. unfold py_round. change (10 ^ 2) with 100.
  assert (Hk : 100 * k <= round_half_even (x * inject_Z 100)).
  { apply round_half_even_ge. rewrite inject_Z_mult.
    change (inject_Z 100) with 100%Q. lra. }
  rewrite Zle_Qle, inject_Z_mult in Hk.
  change (inject_Z 100) with 100%Q in *.
  apply Qle_shift_div_l; lra.
Qed.

(** The rounded difference of two amounts and the difference of the two
    rounded amounts are at most one cent apart. *)
Lemma py_round2_sub a b :
  (Qabs (py_round (a - b) 2 - (py_round a 2 - py_round b 2)) <= 0.01)%Q.
Proof.
  unfold py_round. change (10 ^ 2) with 100.
  set (G := round_half_even ((a - b) * inject_Z 100)).
  set (A := round_half_even (a * inject_Z 100)).
  set (B := round_half_even (b * inject_Z 100)).
  destruct (round_half_even_near ((a - b) * inject_Z 100)) as [G1 G2].
  destruct (round_half_even_near (a * inject_Z 100)) as [A1 A2].
  destruct (round_half_even_near (b * inject_Z 100)) as [B1 B2].
  fold G in G1, G2. fold A in A1, A2. fold B in B1, B2.
  change (inject_Z 100) with 100%Q in *.
  assert (Hlo : -2 < G - (A - B)).
  { rewrite Zlt_Qlt, !inject_Z_minus. change (inject_Z (-2)) with (-2)%Q. lra. }
  assert (Hhi : G - (A - B) < 2).
  { rewrite Zlt_Qlt, !inject_Z_minus. change (inject_Z 2) with 2%Q. lra. }
  assert (Hz : -1 <= G - (A - B) <= 1) by lia.
  destruct Hz as [Hz1 Hz2].
  rewrite Zle_Qle in Hz1, Hz2.
  rewrite !inject_Z_minus in Hz1, Hz2.
  change (inject_Z (-1)) with (-1)%Q in Hz1. change (inject_Z 1) with 1%Q in Hz2.
  apply Qabs_Qle_condition. split.
  - setoid_replace (inject_Z G / 100 - (inject_Z A / 100 - inject_Z B / 100))%Q
      with ((inject_Z G - (inject_Z A - inject_Z B)) / 100)%Q by field.
    apply Qle_shift_div_l; lra.
  - setoid_replace (inject_Z G / 100 - (inject_Z A / 100 - inject_Z B / 100))%Q
      with ((inject_Z G - (inject_Z A - inject_Z B)) / 100)%Q by field.
    apply Qle_shift_div_r; lra.
Qed.

(** The same with three amounts: at most two cents. *)
Lemma py_round2_sub3 a b c :
  (Qabs (py_round (a - b - c) 2 - (py_round a 2 - py_round b 2 - py_round c 2))
   <= 0.02)%Q.
Proof.
  unfold py_round. change (10 ^ 2) with 100.
  set (G := round_half_even ((a - b - c) * inject_Z 100)).
  set (A := round_half_even (a * inject_Z 100)).
  set (B := round_half_even (b * inject_Z 100)).
  set (C := round_half_even (c * inject_Z 100)).
  destruct (round_half_even_near ((a - b - c) * inject_Z 100)) as [G1 G2].
  destruct (round_half_even_near (a * inject_Z 100)) as [A1 A2].
  destruct (round_half_even_near (b * inject_Z 100)) as [B1 B2].
  destruct (round_half_even_near (c * inject_Z 100)) as [C1 C2].
  fold G in G1, G2. fold A in A1, A2. fold B in B1, B2. fold C in C1, C2.
  change (inject_Z 100) with 100%Q in *.
  apply Qabs_Qle_condition. split.
  - setoid_replace (inject_Z G / 100
        - (inject_Z A / 100 - inject_Z B / 100 - inject_Z C / 100))%Q
      with ((inject_Z G - (inject_Z A - inject_Z B - inject_Z C)) / 100)%Q by field.
    apply Qle_shift_div_l; lra.
  - setoid_replace (inject_Z G / 100
        - (inject_Z A / 100 - inject_Z B / 100 - inject_Z C / 100))%Q
      with ((inject_Z G - (inject_Z A - inject_Z B - inject_Z C)) / 100)%Q by field.
    apply Qle_shift_div_r; lra.
Qed.

(** On a float that is not negative [int] is the floor. *)
Lemma int_of_float_nonneg x :
  (0 <= x)%Q -> 0 <= int_of_float x /\ (inject_Z (int_of_float x) <= x)%Q.
Proof.
  intro Hx. unfold int_of_float.
  assert (Hn : 0 <= Qnum x).
  { unfold Qle in Hx. simpl in Hx. lia. }
  rewrite Z.quot_div_nonneg by lia. split.
  - apply Z.div_pos; lia.
  - destruct x as [p q]. apply (Qfloor_le (p # q)).
Qed.

(** ** The generators return, and every row is as the loop builds it *)

Section Specs.

Variable R : RandomSource.
Hypothesis R_ok : lawful R.

(** One step through a call of the script. *)
Ltac step :=
  lazymatch goal with
  | |- returns (bind _ _ _) _ _ => apply returns_bind
  | |- returns (ret _ _) _ _ => apply returns_ret
  | |- returns (randint _ _ _) _ _ =>
      apply (returns_randint R R_ok); [lia | intros ? ? ?]
  | |- returns (choice _ _) _ _ =>
      apply (returns_choice R R_ok); [discriminate | intros ? ? ?]
  | |- returns (uniform _ _ _) _ _ =>
      apply (returns_uniform R R_ok); intros ? ? ? ?
  | |- returns (if ?b then _ else _) _ _ => destruct b
  end.

Lemma subcats_lookup cat :
  In cat ["Technology"; "Furniture"; "Office Supplies"]%string ->
  exists subs,
    subs <> [] /\
    dict_get R
      [("Technology", ["Phones"; "Computers"; "Accessories"; "Copiers"]);
       ("Furniture", ["Chairs"; "Tables"; "Bookcases"; "Furnishings"]);
       ("Office Supplies", ["Paper"; "Binders"; "Art"; "Storage"; "Labels"])]%string
      cat = ret R subs.
Proof.
  intros [<-|[<-|[<-|[]]]]; eexists; (split; [|reflexivity]); discriminate.
Qed.

(** The sales rows, with the list of dates the first loop drew: the row
    of index [i] is ordered on the date of index [i]. *)
Lemma sales_returns_dates n s :
  exists dates s1,
    mapM R (fun _ : Z =>
              bind R (randint R 0 1095)
                   (fun k => ret R (datetime 2022 1 1 + timedelta k)))
         (range n) s = Returns (dates, s1) /\
    returns (generate_sales_data R n) s
      (fun df _ =>
         df = DataFrame_of Sales.keys (rows df) /\
         Forall2 (fun i r =>
                    sales_row_ok i r /\
                    nth_error dates (Z.to_nat i) = Some (Sales.Order_Date r))
                 (range n) (rows df)).
Proof.
  assert (Hd : returns
                  (mapM R (fun _ : Z =>
                             bind R (randint R 0 1095)
                                  (fun k => ret R (datetime 2022 1 1 + timedelta k)))
                        (range n)) s
                  (fun dates _ => Forall2 (fun _ _ => True) (range n) dates)).
  { apply returns_mapM. intros x s0 _. repeat step. trivial. }
  destruct (returns_elim R _ _ _ Hd) as (dates & s1 & E & Hdates).
  exists dates, s1. split; [exact E|].
  apply Forall2_length in Hdates. rewrite range_length in Hdates.
  unfold generate_sales_data. step. unfold returns at 1. rewrite E.
  step. eapply returns_mono.
  { apply (returns_mapM R _
             (fun i r => sales_row_ok i r /\
                         nth_error dates (Z.to_nat i) = Some (Sales.Order_Date r))).
    intros i s2 Hi. apply range_In in Hi.
    step. step.
    destruct (subcats_lookup x) as (subs & Hsubs & ->); [assumption|].
    step. step. step.
    apply (returns_choice R R_ok); [assumption|]. intros subcat ? _.
    repeat step.
    all: apply (returns_getitem R); [lia|]; intros order_date Horder.
    all: step; apply (returns_getitem R); [lia|]; intros shipped Hshipped.
    all: repeat step.
    all: unfold sales_row_ok, timedelta;
         cbn [Sales.Order_ID Sales.Ship_Date Sales.Order_Date Sales.Discount];
         (split; [|assumption]);
         (split; [reflexivity|]); (split; [|assumption]);
         assert (shipped = order_date) by congruence; lia. }
  intros data s3 Hdata. step. split; [reflexivity|assumption].
Qed.

Lemma sales_returns n s :
  returns (generate_sales_data R n) s
    (fun df _ => df = DataFrame_of Sales.keys (rows df) /\
                 Forall2 sales_row_ok (range n) (rows df)).
Proof.
  destruct (sales_returns_dates n s) as (dates & s1 & _ & H).
  eapply returns_mono; [exact H|].
  intros df _ [Hdf Hrows]. split; [assumption|].
  eapply Forall2_impl; [|exact Hrows]. now intros i r [Hr _].
Qed.

Lemma draw_date_eq s :
  bind R (randint R 0 1095)
       (fun k => ret R (datetime 2022 1 1 + timedelta k)) s
  = Returns (datetime 2022 1 1 + fst (randbelow R 1096 s),
             snd (randbelow R 1096 s)).
Proof.
  unfold bind, randint, random_randbelow, ret, timedelta.
  change (0 <? 1095 + 1 - 0) with true. change (1095 + 1 - 0) with 1096.
  unfold bind. now destruct (randbelow R 1096 s).
Qed.

(** The first row is ordered on the date the first draw of the call
    yields. *)
Lemma sales_first_order_date n s :
  1 <= n ->
  exists df s',
    generate_sales_data R n s = Returns (df, s') /\
    option_map Sales.Order_Date (hd_error (rows df))
      = Some (datetime 2022 1 1 + fst (randbelow R 1096 s)).
Proof.
  intro Hn.
  destruct (sales_returns_dates n s) as (dates & s1 & E & H).
  destruct (returns_elim R _ _ _ H) as (df & s' & G & _ & Hrows).
  exists df, s'. split; [assumption|].
  assert (Hrange : exists l, range n = 0 :: l).
  { unfold range. destruct (Z.to_nat n) as [|m] eqn:Em; [lia|].
    simpl. eexists. reflexivity. }
  destruct Hrange as [l Hl]. rewrite Hl in E, Hrows.
  inversion Hrows as [|i r l0 rs [_ Hdate] Hrest]; subst.
  cbn [hd_error option_map]. f_equal.
  cbn [mapM] in E. unfold bind at 1 in E. rewrite draw_date_eq in E.
  unfold bind at 1 in E.
  generalize dependent (datetime 2022 1 1). intros start E.
  match type of E with
  | context [mapM R ?f l ?s0] => destruct (mapM R f l s0) as [[dates' s2]|e]
  end; [|discriminate].
  unfold ret in E. injection E as <- _.
  cbn [Z.to_nat nth_error] in Hdate. now injection Hdate as <-.
Qed.

Lemma customer_returns n s :
  returns (generate_customer_data R n) s
    (fun df _ => df = DataFrame_of Customer.keys (rows df) /\
                 Forall2 customer_row_ok (range n) (rows df)).
Proof.
  unfold generate_customer_data. step. eapply returns_mono.
  { apply (returns_mapM R _ customer_row_ok).
    intros i s0 _. repeat step.
    unfold customer_row_ok;
      cbn [Customer.Customer_ID Customer.Days_Since_Last_Purchase Customer.Churned].
    split; [reflexivity|]. split; [lia|reflexivity]. }
  intros data s1 Hdata. step. split; [reflexivity|assumption].
Qed.

(** With no round to run, nothing is drawn. *)
Lemma sales_nonpos n s :
  n <= 0 ->
  generate_sales_data R n s = Returns (DataFrame_of Sales.keys [], s).
Proof.
  intro Hn. unfold generate_sales_data. now rewrite (range_nonpos n Hn).
Qed.

Lemma customer_nonpos n s :
  n <= 0 ->
  generate_customer_data R n s = Returns (DataFrame_of Customer.keys [], s).
Proof.
  intro Hn. unfold generate_customer_data. now rewrite (range_nonpos n Hn).
Qed.

Lemma operations_returns n s :
  returns (generate_operations_data R n) s
    (fun df _ =>
       df = DataFrame_of Operations.keys (rows df) /\
       Forall2 operations_row_ok
         (flat_map (fun date => map (fun shift => (date, shift))
                                    ["Morning"; "Evening"; "Night"]%string)
                   (date_range_D (datetime 2023 1 1) (datetime 2024 12 31)))
         (rows df)).
Proof.
  unfold generate_operations_data. step. eapply returns_mono.
  { apply (returns_mapM R _ operations_row_ok).
    intros [date shift] s0 _. cbv beta iota. do 4 step.
    rename k into production, u into u_rate.
    assert (Hp : (800 <= inject_Z production /\ inject_Z production <= 1200)%Q).
    { change 800%Q with (inject_Z 800). change 1200%Q with (inject_Z 1200).
      rewrite <- !Zle_Qle. lia. }
    set (rate := (0.01 + (0.05 - 0.01) * u_rate)%Q).
    assert (Hrate : (0.01 <= rate /\ rate <= 0.05)%Q) by (unfold rate; lra).
    assert (Hx : (0 <= inject_Z production * rate /\
                  inject_Z production * rate <= inject_Z production)%Q) by nra.
    destruct (int_of_float_nonneg (inject_Z production * rate)%Q) as [Hd0 Hd1];
      [tauto|].
    assert (Hd : int_of_float (inject_Z production * rate)%Q <= production).
    { rewrite Zle_Qle. lra. }
    step. step. step. apply (returns_truediv R); [lia|].
    repeat step.
    unfold operations_row_ok;
      cbn [Operations.Date Operations.Shift Operations.Units_Produced
           Operations.Defects Operations.Defect_Rate fst snd].
    repeat split; try reflexivity; lia. }
  intros data s1 Hdata. step. split; [reflexivity|assumption].
Qed.

Lemma enumerate_index {A : Type} (l : list A) i x :
  In (i, x) (enumerate l) -> 0 <= i.
Proof.
  intro H. apply in_combine_l in H. apply range_In in H. lia.
Qed.

Section Financial.

Variable np_sin : float -> float.
Hypothesis np_sin_ok : sine_bounded np_sin.

Lemma financial_draw_returns i s :
  0 <= i ->
  returns (financial_draw R np_sin i) s (fun x _ => financial_raw_ok x).
Proof.
  intro Hi. unfold financial_draw.
  assert (Hq : (0 <= inject_Z i)%Q)
    by (change 0%Q with (inject_Z 0); now rewrite <- Zle_Qle).
  destruct (np_sin_ok (2 * np_pi * inject_Z i / 12)%Q) as [Hs1 Hs2].
  set (sn := np_sin (2 * np_pi * inject_Z i / 12)%Q) in *.
  set (trend := (500000 * (1 + 0.015 * inject_Z i))%Q).
  assert (Htrend : (500000 <= trend)%Q) by (unfold trend; lra).
  assert (Hseason : (450000 <= trend * (1 + 0.1 * sn))%Q) by nra.
  set (seasonal := (trend * (1 + 0.1 * sn))%Q) in *.
  repeat step.
  unfold financial_raw_ok; cbn [raw_revenue raw_cogs raw_opex].
  set (revenue := (seasonal + (-20000 + (30000 - -20000) * u))%Q).
  assert (Hrev : (430000 <= revenue)%Q) by (unfold revenue; lra).
  split; [assumption|]. split; nra.
Qed.

Lemma financial_returns s :
  returns (generate_financial_data R np_sin) s
    (fun df _ =>
       df = DataFrame_of Financial.keys (rows df) /\
       Forall2 financial_row_ok (enumerate financial_months) (rows df)).
Proof.
  unfold generate_financial_data. step. eapply returns_mono.
  { apply (returns_mapM R _ financial_row_ok).
    intros [i month] s0 Him. apply enumerate_index in Him.
    cbv beta iota. step. eapply returns_mono; [now apply financial_draw_returns|].
    intros x s1 Hx. step. now exists x. }
  intros data s1 Hdata. step. split; [reflexivity|assumption].
Qed.

End Financial.

End Specs.

(** ** The two instances are what they stand for *)

Lemma tape_lawful : lawful tape.
Proof.
  split.
  - intros s. cbn [tape random]. destruct (tape_next s) as [w s']. cbn [fst].
    pose proof (Z.mod_pos_bound w (2 ^ 53) eq_refl) as [Hlo Hhi].
    rewrite Zle_Qle in Hlo. rewrite Zlt_Qlt in Hhi.
    change (inject_Z 0) with 0%Q in Hlo.
    assert (Hpos : (0 < inject_Z (2 ^ 53))%Q) by reflexivity.
    split.
    + apply Qle_shift_div_l; [assumption|]. lra.
    + apply Qlt_shift_div_r; [assumption|]. lra.
  - intros n s Hn. cbn [tape randbelow]. destruct (tape_next s) as [w s'].
    cbn [fst]. now apply Z.mod_pos_bound.
Qed.

Lemma sin_ref_bounded : sine_bounded sin_ref.
Proof.
  intros x. unfold sin_ref.
  match goal with
  | |- context [Z.max (- fx_one) (Z.min fx_one ?v)] =>
      set (y := Z.max (- fx_one) (Z.min fx_one v))
  end.
  assert (Hy : - fx_one <= y <= fx_one) by (unfold fx_one in *; lia).
  destruct Hy as [Hlo Hhi]. rewrite Zle_Qle in Hlo, Hhi.
  rewrite inject_Z_opp in Hlo.
  assert (Hpos : (0 < inject_Z fx_one)%Q) by reflexivity.
  split.
  - apply Qle_shift_div_l; [assumption|]. lra.
  - apply Qle_shift_div_r; [assumption|]. lra.
Qed.

(** ** From the rounds to the rows *)

Lemma Forall2_Forall_r {A B : Type} (P : A -> B -> Prop) (Q : B -> Prop) l l' :
  Forall2 P l l' -> (forall x y, P x y -> Q y) -> Forall Q l'.
Proof.
  intros H HPQ. induction H; constructor; eauto.
Qed.

Lemma Forall2_map_eq {A B C : Type} (f : A -> C) (g : B -> C) l l' :
  Forall2 (fun x y => g y = f x) l l' -> map g l' = map f l.
Proof.
  intros H. induction H; simpl; congruence.
Qed.

Lemma str_inj i j : str i = str j -> i = j.
Proof.
  unfold str. intro H. apply to_int_inj.
  assert (E : Some (Z.to_int i) = Some (Z.to_int j))
    by (rewrite <- !NilEmpty.isi; now rewrite H).
  now injection E.
Qed.

(** ** The script returns *)

Lemma np_random_seed_in_range (R : RandomSource) seed (p : process R) :
  0 <= seed < 4294967296 ->
  np_random_seed R seed p
  = Returns {| np_random_state := seed; random_state := random_state R p |}.
Proof.
  intro H. unfold np_random_seed.
  destruct (Z.leb_spec 0 seed); [|lia].
  destruct (Z.ltb_spec seed 4294967296); [reflexivity|lia].
Qed.

Lemma script_returns (R : RandomSource) np_sin seed p :
  lawful R -> sine_bounded np_sin -> 0 <= seed < 4294967296 ->
  exists d p',
    script R np_sin seed p = Returns (d, p') /\
    np_random_state R p' = seed /\
    exists s', generate_sales_data R 5000 (random_state R p)
               = Returns (sales_df d, s').
Proof.
  intros HR Hsin Hseed. unfold script.
  rewrite (np_random_seed_in_range R seed p Hseed).
  unfold bind, ret. cbn [random_state np_random_state].
  destruct (returns_elim R _ _ _ (sales_returns R HR 5000 (random_state R p)))
    as (sd & s1 & -> & _).
  destruct (returns_elim R _ _ _ (operations_returns R HR 2000 s1))
    as (od & s2 & -> & _).
  destruct (returns_elim R _ _ _ (financial_returns R HR np_sin Hsin s2))
    as (fd & s3 & -> & _).
  destruct (returns_elim R _ _ _ (customer_returns R HR 1500 s3))
    as (cd & s4 & -> & _).
  eexists _, _. split; [reflexivity|]. split; [reflexivity|].
  now exists s1.
Qed.

(** A seed NumPy accepts reaches none of the four data frames. *)
Lemma script_ignores_seed (R : RandomSource) np_sin seed seed' p d p' :
  0 <= seed' < 4294967296 ->
  script R np_sin seed p = Returns (d, p') ->
  exists p'', script R np_sin seed' p = Returns (d, p'').
Proof.
  intro Hseed'. unfold script.
  rewrite (np_random_seed_in_range R seed' p Hseed').
  destruct (np_random_seed R seed p) as [q|e] eqn:E; [|discriminate].
  unfold np_random_seed in E.
  destruct ((0 <=? seed) && (seed <? 4294967296)); [|discriminate].
  injection E as <-. cbn [random_state np_random_state].
  match goal with |- context [match ?m with _ => _ end] => destruct m as [[d0 s0]|e] end.
  - intros [= <- _]. eexists. reflexivity.
  - discriminate.
Qed.

(** * The claims *)

(** C1, evaluated on the code: two runs of the script with the same seed
    42 handed to [np.random.seed], started with the generator of [random]
    in two different states, both return, and the sales rows of the one
    are not the sales rows of the other.  The seed does not determine the
    output of [generate_sales_data(5000)]. *)
Theorem same_seed_different_sales :
  exists (e1 e2 : rstate tape) d1 p1 d2 p2,
    script tape sin_ref 42 (mkProcess tape 0 e1)
      = Returns (d1, p1) /\
    script tape sin_ref 42 (mkProcess tape 0 e2)
      = Returns (d2, p2) /\
    rows (sales_df d1) <> rows (sales_df d2).
Proof.
  exists [], [1].
  destruct (script_returns tape sin_ref 42
              (mkProcess tape 0 [])
              tape_lawful sin_ref_bounded ltac:(lia))
    as (d1 & p1 & E1 & _ & s1 & G1).
  destruct (script_returns tape sin_ref 42
              (mkProcess tape 0 [1])
              tape_lawful sin_ref_bounded ltac:(lia))
    as (d2 & p2 & E2 & _ & s2 & G2).
  exists d1, p1, d2, p2. split; [assumption|]. split; [assumption|].
  cbn [random_state] in G1, G2.
  destruct (sales_first_order_date tape tape_lawful 5000 [] ltac:(lia))
    as (df1 & t1 & H1 & F1).
  destruct (sales_first_order_date tape tape_lawful 5000 [1] ltac:(lia))
    as (df2 & t2 & H2 & F2).
  rewrite G1 in H1. rewrite G2 in H2.
  injection H1 as <- _. injection H2 as <- _.
  intro Heq. rewrite Heq in F1. rewrite F1 in F2.
  vm_compute in F2. discriminate.
Qed.

(** C3, refuted as stated: called with -1, neither [generate_sales_data]
    nor [generate_customer_data] raises anything. *)
Lemma negative_count_not_rejected :
  (forall e, generate_sales_data tape (-1) [7; 8; 9] <> Raises e) /\
  (forall e, generate_customer_data tape (-1) [7; 8; 9] <> Raises e).
Proof.
  split; intros e; vm_compute; discriminate.
Qed.

(** C3, amended: for every negative row count both generators return
    normally, with a data frame of no row (and so of no column), and leave
    the random source in the state they found it in: nothing is drawn and
    no error is signalled. *)
Theorem negative_count_returns_empty (R : RandomSource) (n : Z) (s : rstate R) :
  n < 0 ->
  generate_sales_data R n s = Returns ({| columns := []; rows := [] |}, s) /\
  generate_customer_data R n s = Returns ({| columns := []; rows := [] |}, s).
Proof.
  intro Hn. split.
  - rewrite sales_nonpos by lia. reflexivity.
  - rewrite customer_nonpos by lia. reflexivity.
Qed.

Lemma negative_count_returns_empty_witness :
  -1 < 0 /\
  generate_sales_data tape (-1) [7; 8; 9]
    = Returns ({| columns := []; rows := [] |}, [7; 8; 9]) /\
  generate_customer_data tape (-1) [7; 8; 9]
    = Returns ({| columns := []; rows := [] |}, [7; 8; 9]).
Proof.
  split; [lia|]. apply (negative_count_returns_empty tape (-1) [7; 8; 9]). lia.
Defined.

(** C4, refuted as stated: the data frame [generate_sales_data(0)] returns
    has no row, but its header is not the fourteen column names. *)
Lemma empty_sales_has_no_header :
  exists df s',
    generate_sales_data tape 0 [7; 8; 9] = Returns (df, s') /\
    rows df = [] /\
    columns df <> Sales.keys.
Proof.
  eexists _, _. split; [vm_compute; reflexivity|]. split; [reflexivity|].
  discriminate.
Qed.

(** C4, amended: [generate_sales_data(0)] returns a data frame of no row
    and of no column, and draws nothing; the header of the fourteen sales
    columns, in the order of the specification, is there as soon as one
    row is asked for. *)
Theorem sales_header (R : RandomSource) (s : rstate R) :
  lawful R ->
  generate_sales_data R 0 s = Returns ({| columns := []; rows := [] |}, s) /\
  List.length Sales.keys = 14%nat /\
  forall n, 1 <= n ->
    exists df s', generate_sales_data R n s = Returns (df, s') /\
                  rows df <> [] /\
                  columns df = Sales.keys.
Proof.
  intro HR. split; [now rewrite sales_nonpos by lia|]. split; [reflexivity|].
  intros n Hn.
  destruct (returns_elim R _ _ _ (sales_returns R HR n s))
    as (df & s' & E & Hdf & Hrows).
  exists df, s'. split; [assumption|].
  apply Forall2_length in Hrows. rewrite range_length in Hrows.
  destruct (rows df) as [|r rs] eqn:Er.
  - simpl in Hrows. lia.
  - split; [discriminate|]. rewrite Hdf. reflexivity.
Qed.

Lemma sales_header_witness :
  lawful tape /\
  generate_sales_data tape 0 [7; 8; 9]
    = Returns ({| columns := []; rows := [] |}, [7; 8; 9]) /\
  List.length Sales.keys = 14%nat /\
  forall n, 1 <= n ->
    exists df s', generate_sales_data tape n [7; 8; 9] = Returns (df, s') /\
                  rows df <> [] /\
                  columns df = Sales.keys.
Proof.
  split; [exact tape_lawful|]. apply (sales_header tape [7; 8; 9] tape_lawful).
Defined.

(** C2, refuted as stated: with a first draw that puts the revenue of the
    first month at 500000.004 and a second that puts its cost of goods at
    300000.006, the stored gross profit is 200000.00 while the stored
    revenue less the stored cost is 199999.99. *)
Lemma stored_profits_not_exact :
  exists df s',
    generate_financial_data tape sin_ref
      [3602880422472337; 4503600275888842] = Returns (df, s') /\
    ~ Forall profits_exact (rows df).
Proof.
  eexists _, _. split; [vm_compute; reflexivity|].
  intro H. apply Forall_inv in H. destruct H as [H _].
  vm_compute in H. discriminate.
Qed.

(** C2, amended: every row of [generate_financial_data()] stores the
    roundings to cents of a revenue, a cost of goods and an operating
    expense, and its two profits are the roundings of the differences of
    these unrounded amounts; so the stored gross profit is within one cent
    of the stored revenue less the stored cost, and the stored net profit
    within two cents of the stored revenue less both stored costs. *)
Theorem stored_profits_rounded_apart (R : RandomSource) np_sin (s : rstate R) :
  lawful R -> sine_bounded np_sin ->
  exists df s',
    generate_financial_data R np_sin s = Returns (df, s') /\
    Forall (fun r =>
      (exists revenue cogs opex,
         Financial.Revenue r = py_round revenue 2 /\
         Financial.COGS r = py_round cogs 2 /\
         Financial.Operating_Expenses r = py_round opex 2 /\
         Financial.Gross_Profit r = py_round (revenue - cogs) 2 /\
         Financial.Net_Profit r = py_round (revenue - cogs - opex) 2) /\
      (Qabs (Financial.Gross_Profit r
             - (Financial.Revenue r - Financial.COGS r)) <= 0.01)%Q /\
      (Qabs (Financial.Net_Profit r
             - (Financial.Revenue r - Financial.COGS r
                - Financial.Operating_Expenses r)) <= 0.02)%Q) (rows df).
Proof.
  intros HR Hsin.
  destruct (returns_elim R _ _ _ (financial_returns R HR np_sin Hsin s))
    as (df & s' & E & _ & Hrows).
  exists df, s'. split; [assumption|].
  eapply Forall2_Forall_r; [exact Hrows|].
  intros im r (x & -> & _). unfold financial_round.
  cbn [Financial.Revenue Financial.COGS Financial.Operating_Expenses
       Financial.Gross_Profit Financial.Net_Profit].
  split; [|split].
  - exists (raw_revenue x), (raw_cogs x), (raw_opex x). repeat split.
  - apply py_round2_sub.
  - apply py_round2_sub3.
Qed.

Lemma stored_profits_rounded_apart_witness :
  lawful tape /\ sine_bounded sin_ref /\
  exists df s',
    generate_financial_data tape sin_ref [3602880422472337; 4503600275888842]
      = Returns (df, s') /\
    Forall (fun r =>
      (exists revenue cogs opex,
         Financial.Revenue r = py_round revenue 2 /\
         Financial.COGS r = py_round cogs 2 /\
         Financial.Operating_Expenses r = py_round opex 2 /\
         Financial.Gross_Profit r = py_round (revenue - cogs) 2 /\
         Financial.Net_Profit r = py_round (revenue - cogs - opex) 2) /\
      (Qabs (Financial.Gross_Profit r
             - (Financial.Revenue r - Financial.COGS r)) <= 0.01)%Q /\
      (Qabs (Financial.Net_Profit r
             - (Financial.Revenue r - Financial.COGS r
                - Financial.Operating_Expenses r)) <= 0.02)%Q) (rows df).
Proof.
  split; [exact tape_lawful|]. split; [exact sin_ref_bounded|].
  apply (stored_profits_rounded_apart tape sin_ref
           [3602880422472337; 4503600275888842] tape_lawful sin_ref_bounded).
Defined.

(** C5: for every row count that is not negative, [generate_customer_data]
    returns, and in every row [Churned] is 1 exactly when
    [Days_Since_Last_Purchase] exceeds 180 and 0 exactly when it does not. *)
Theorem churned_iff_over_180_days (R : RandomSource) (n : Z) (s : rstate R) :
  lawful R -> 0 <= n ->
  exists df s',
    generate_customer_data R n s = Returns (df, s') /\
    Forall (fun r =>
      (Customer.Churned r = 1 <-> 180 < Customer.Days_Since_Last_Purchase r) /\
      (Customer.Churned r = 0 <-> Customer.Days_Since_Last_Purchase r <= 180))
      (rows df).
Proof.
  intros HR _.
  destruct (returns_elim R _ _ _ (customer_returns R HR n s))
    as (df & s' & E & _ & Hrows).
  exists df, s'. split; [assumption|].
  eapply Forall2_Forall_r; [exact Hrows|].
  intros i r (_ & _ & ->).
  destruct (Z.ltb_spec 180 (Customer.Days_Since_Last_Purchase r)); lia.
Qed.

Lemma churned_iff_over_180_days_witness :
  lawful tape /\ 0 <= 3 /\
  exists df s',
    generate_customer_data tape 3 [0; 0; 0; 200; 0; 0; 0; 0; 0; 0; 100]
      = Returns (df, s') /\
    Forall (fun r =>
      (Customer.Churned r = 1 <-> 180 < Customer.Days_Since_Last_Purchase r) /\
      (Customer.Churned r = 0 <-> Customer.Days_Since_Last_Purchase r <= 180))
      (rows df).
Proof.
  split; [exact tape_lawful|]. split; [lia|].
  apply (churned_iff_over_180_days tape 3
           [0; 0; 0; 200; 0; 0; 0; 0; 0; 0; 100] tape_lawful). lia.
Defined.

(** C6: [generate_operations_data()] returns, and in every row [Defects]
    lies between 0 and [Units_Produced], and [Defect_Rate] is the quotient
    of the stored [Defects] by the stored [Units_Produced], the double that
    [/] returns, rounded to four places. *)
Theorem defects_within_production (R : RandomSource) (n : Z) (s : rstate R) :
  lawful R ->
  exists df s',
    generate_operations_data R n s = Returns (df, s') /\
    Forall (fun r =>
      0 <= Operations.Defects r <= Operations.Units_Produced r /\
      Operations.Defect_Rate r =
        py_round (b64 (inject_Z (Operations.Defects r)
                       / inject_Z (Operations.Units_Produced r))) 4) (rows df).
Proof.
  intros HR.
  destruct (returns_elim R _ _ _ (operations_returns R HR n s))
    as (df & s' & E & _ & Hrows).
  exists df, s'. split; [assumption|].
  eapply Forall2_Forall_r; [exact Hrows|].
  intros ds r (_ & _ & _ & Hd & Hrate). now split.
Qed.

Lemma defects_within_production_witness :
  lawful tape /\
  exists df s',
    generate_operations_data tape 2000 [1000; 4503599627370496] = Returns (df, s') /\
    Forall (fun r =>
      0 <= Operations.Defects r <= Operations.Units_Produced r /\
      Operations.Defect_Rate r =
        py_round (b64 (inject_Z (Operations.Defects r)
                       / inject_Z (Operations.Units_Produced r))) 4) (rows df).
Proof.
  split; [exact tape_lawful|].
  apply (defects_within_production tape 2000 [1000; 4503599627370496] tape_lawful).
Defined.

(** C7: for every row count that is not negative, [generate_sales_data]
    returns, and in every row the ship date is from 1 to 7 days after the
    order date and the discount is one of 0, 0.10, 0.15, 0.20 and 0.25. *)
Theorem ship_delay_and_discount (R : RandomSource) (n : Z) (s : rstate R) :
  lawful R -> 0 <= n ->
  exists df s',
    generate_sales_data R n s = Returns (df, s') /\
    Forall (fun r =>
      1 <= Sales.Ship_Date r - Sales.Order_Date r <= 7 /\
      In (Sales.Discount r) [0; 0.1; 0.15; 0.2; 0.25]%Q) (rows df).
Proof.
  intros HR _.
  destruct (returns_elim R _ _ _ (sales_returns R HR n s))
    as (df & s' & E & _ & Hrows).
  exists df, s'. split; [assumption|].
  eapply Forall2_Forall_r; [exact Hrows|].
  intros i r (_ & Hship & Hdisc). now split.
Qed.

Lemma ship_delay_and_discount_witness :
  lawful tape /\ 0 <= 2 /\
  exists df s',
    generate_sales_data tape 2 [30; 400; 1; 2; 3; 1; 77; 4; 3] = Returns (df, s') /\
    Forall (fun r =>
      1 <= Sales.Ship_Date r - Sales.Order_Date r <= 7 /\
      In (Sales.Discount r) [0; 0.1; 0.15; 0.2; 0.25]%Q) (rows df).
Proof.
  split; [exact tape_lawful|]. split; [lia|].
  apply (ship_delay_and_discount tape 2 [30; 400; 1; 2; 3; 1; 77; 4; 3]
           tape_lawful). lia.
Defined.

Lemma financial_months_ascending : StronglySorted Z.lt financial_months.
Proof.
  apply Sorted_StronglySorted; [exact Z.lt_trans|].
  vm_compute financial_months.
  repeat (constructor; try reflexivity).
Qed.

(** C8: for a row count [n] that is not negative [generate_sales_data] and
    [generate_customer_data] return exactly [n] rows;
    [generate_operations_data] returns three rows for each of the 731 days
    from 2023-01-01 to 2024-12-31; [generate_financial_data] returns one
    row for each of the 36 months from 2022-01 to 2024-12, the months in
    ascending order. *)
Theorem row_counts (R : RandomSource) np_sin (n : Z) (s : rstate R) :
  lawful R -> sine_bounded np_sin -> 0 <= n ->
  (exists df s', generate_sales_data R n s = Returns (df, s') /\
                 Z.of_nat (List.length (rows df)) = n) /\
  (exists df s', generate_customer_data R n s = Returns (df, s') /\
                 Z.of_nat (List.length (rows df)) = n) /\
  (exists df s', generate_operations_data R n s = Returns (df, s') /\
                 Z.of_nat (List.length (rows df))
                   = (datetime 2024 12 31 - datetime 2023 1 1 + 1) * 3 /\
                 List.length (rows df) = 2193%nat) /\
  (exists df s', generate_financial_data R np_sin s = Returns (df, s') /\
                 map Financial.Month (rows df) = months_2022_2024 /\
                 List.length (rows df) = 36%nat /\
                 StronglySorted Z.lt (map Financial.Month (rows df))).
Proof.
  intros HR Hsin Hn. repeat split.
  - destruct (returns_elim R _ _ _ (sales_returns R HR n s))
      as (df & s' & E & _ & Hrows).
    exists df, s'. split; [assumption|].
    apply Forall2_length in Hrows. rewrite range_length in Hrows. lia.
  - destruct (returns_elim R _ _ _ (customer_returns R HR n s))
      as (df & s' & E & _ & Hrows).
    exists df, s'. split; [assumption|].
    apply Forall2_length in Hrows. rewrite range_length in Hrows. lia.
  - destruct (returns_elim R _ _ _ (operations_returns R HR n s))
      as (df & s' & E & _ & Hrows).
    exists df, s'. split; [assumption|].
    apply Forall2_length in Hrows. rewrite <- Hrows.
    split; vm_compute; reflexivity.
  - destruct (returns_elim R _ _ _ (financial_returns R HR np_sin Hsin s))
      as (df & s' & E & _ & Hrows).
    exists df, s'. split; [assumption|].
    assert (Hm : map Financial.Month (rows df) = financial_months).
    { transitivity (map snd (enumerate financial_months));
        [|vm_compute; reflexivity].
      apply Forall2_map_eq. eapply Forall2_impl; [|exact Hrows].
      intros im r (x & -> & _). reflexivity. }
    split; [rewrite Hm; vm_compute; reflexivity|].
    split; [rewrite <- (length_map Financial.Month), Hm; reflexivity|].
    rewrite Hm. exact financial_months_ascending.
Qed.

Lemma row_counts_witness :
  lawful tape /\ sine_bounded sin_ref /\ 0 <= 4 /\
  (exists df s', generate_sales_data tape 4 [11; 12; 13] = Returns (df, s') /\
                 Z.of_nat (List.length (rows df)) = 4) /\
  (exists df s', generate_customer_data tape 4 [11; 12; 13] = Returns (df, s') /\
                 Z.of_nat (List.length (rows df)) = 4) /\
  (exists df s', generate_operations_data tape 4 [11; 12; 13] = Returns (df, s') /\
                 Z.of_nat (List.length (rows df))
                   = (datetime 2024 12 31 - datetime 2023 1 1 + 1) * 3 /\
                 List.length (rows df) = 2193%nat) /\
  (exists df s', generate_financial_data tape sin_ref [11; 12; 13]
                   = Returns (df, s') /\
                 map Financial.Month (rows df) = months_2022_2024 /\
                 List.length (rows df) = 36%nat /\
                 StronglySorted Z.lt (map Financial.Month (rows df))).
Proof.
  split; [exact tape_lawful|]. split; [exact sin_ref_bounded|]. split; [lia|].
  apply (row_counts tape sin_ref 4 [11; 12; 13] tape_lawful sin_ref_bounded).
  lia.
Defined.



(** C10: for every row count that is not negative the customer
    identifiers [generate_customer_data] returns are pairwise distinct,
    the row of index [i] carrying CUST- followed by [i + 1000]; the
    customer identifiers of [generate_sales_data] can repeat. *)
Theorem customer_ids_distinct (R : RandomSource) (n : Z) (s : rstate R) :
  lawful R -> 0 <= n ->
  (exists df s',
     generate_customer_data R n s = Returns (df, s') /\
     map Customer.Customer_ID (rows df)
       = map (fun i => "CUST-" ++ str (i + 1000))%string (range n) /\
     NoDup (map Customer.Customer_ID (rows df))) /\
  (exists s0 df s',
     generate_sales_data tape 2 s0 = Returns (df, s') /\
     ~ NoDup (map Sales.Customer_ID (rows df))).
Proof.
  intros HR _. split.
  - destruct (returns_elim R _ _ _ (customer_returns R HR n s))
      as (df & s' & E & _ & Hrows).
    exists df, s'. split; [assumption|].
    assert (Hids : map Customer.Customer_ID (rows df)
                   = map (fun i => "CUST-" ++ str (i + 1000))%string (range n)).
    { apply Forall2_map_eq. eapply Forall2_impl; [|exact Hrows].
      intros i r (Hid & _). exact Hid. }
    split; [assumption|]. rewrite Hids.
    apply Injective_map_NoDup; [|apply range_NoDup].
    intros i j Hij. injection Hij as Hij. apply str_inj in Hij. lia.
  - exists []. eexists _, _. split; [vm_compute; reflexivity|].
    cbn [rows map Sales.Customer_ID].
    intro H. inversion H as [|x l Hin _]. apply Hin. now left.
Qed.

Lemma customer_ids_distinct_witness :
  lawful tape /\ 0 <= 3 /\
  (exists df s',
     generate_customer_data tape 3 [21; 22; 23] = Returns (df, s') /\
     map Customer.Customer_ID (rows df)
       = map (fun i => "CUST-" ++ str (i + 1000))%string (range 3) /\
     NoDup (map Customer.Customer_ID (rows df))) /\
  (exists s0 df s',
     generate_sales_data tape 2 s0 = Returns (df, s') /\
     ~ NoDup (map Sales.Customer_ID (rows df))).
Proof.
  split; [exact tape_lawful|]. split; [lia|].
  apply (customer_ids_distinct tape 3 [21; 22; 23] tape_lawful). lia.
Defined.

(** * Further properties of the generators *)

(** ** More on rounding *)

Lemma round_half_even_comp x y : (x == y)%Q -> round_half_even x = round_half_even y.
Proof.
  intro E. unfold round_half_even. rewrite (Qfloor_comp x y E).
  assert (C : Qcompare (x - inject_Z (Qfloor y)) (1 # 2)
              = Qcompare (y - inject_Z (Qfloor y)) (1 # 2))
    by (apply Qcompare_comp; [now rewrite E|reflexivity]).
  now rewrite C.
Qed.

Lemma round_half_even_le k y : (y <= inject_Z k)%Q -> round_half_even y <= k.
Proof.
  intro H. destruct (round_half_even_near y) as [Hlo _].
  destruct (Z_le_gt_dec (round_half_even y) k) as [|Hgt]; [assumption|].
  assert (Hq : (inject_Z (k + 1) <= inject_Z (round_half_even y))%Q)
    by (rewrite <- Zle_Qle; lia).
  rewrite inject_Z_plus in Hq. change (inject_Z 1) with 1%Q in Hq. lra.
Qed.

(** Rounding never reverses an order. *)
Lemma round_half_even_mono x y :
  (x <= y)%Q -> round_half_even x <= round_half_even y.
Proof.
  intro H.
  destruct (round_half_even_near x) as [Hx1 Hx2].
  destruct (round_half_even_near y) as [Hy1 Hy2].
  destruct (Z_le_gt_dec (round_half_even x) (round_half_even y)) as [|Hgt];
    [assumption|].
  assert (Hq : (inject_Z (round_half_even y + 1) <= inject_Z (round_half_even x))%Q)
    by (rewrite <- Zle_Qle; lia).
  rewrite inject_Z_plus in Hq. change (inject_Z 1) with 1%Q in Hq.
  assert (E : (x == y)%Q) by lra.
  rewrite (round_half_even_comp x y E) in Hgt. lia.
Qed.

Lemma pow10_pos n : 0 <= n -> (0 < inject_Z (10 ^ n))%Q.
Proof.
  intro Hn. change 0%Q with (inject_Z 0). rewrite <- Zlt_Qlt.
  apply Z.pow_pos_nonneg; lia.
Qed.

Lemma py_round_mono x y n :
  0 <= n -> (x <= y)%Q -> (py_round x n <= py_round y n)%Q.
Proof.
  intros Hn H. unfold py_round. pose proof (pow10_pos n Hn) as Hp.
  assert (Hm : round_half_even (x * inject_Z (10 ^ n))
               <= round_half_even (y * inject_Z (10 ^ n))).
  { apply round_half_even_mono. apply Qmult_le_compat_r; lra. }
  rewrite Zle_Qle in Hm.
  apply Qle_shift_div_l; [assumption|].
  setoid_replace
    (inject_Z (round_half_even (x * inject_Z (10 ^ n))) / inject_Z (10 ^ n)
     * inject_Z (10 ^ n))%Q
    with (inject_Z (round_half_even (x * inject_Z (10 ^ n))))
    by (field; lra).
  assumption.
Qed.

(** Rounding to cents moves an amount by half a cent at most. *)
Lemma py_round2_near x :
  (x - 0.005 <= py_round x 2 /\ py_round x 2 <= x + 0.005)%Q.
Proof.
  unfold py_round. change (10 ^ 2) with 100.
  destruct (round_half_even_near (x * inject_Z 100)) as [H1 H2].
  change (inject_Z 100) with 100%Q in *.
  split.
  - apply Qle_shift_div_l; lra.
  - apply Qle_shift_div_r; lra.
Qed.

(** ** The nearest double *)

Lemma pow2_pos k : (0 < pow2 k)%Q.
Proof. apply Qpower_0_lt. reflexivity. Qed.

Lemma pow2_plus a b : (pow2 (a + b) == pow2 a * pow2 b)%Q.
Proof. apply Qpower_plus. discriminate. Qed.

Lemma pow2_inject k : 0 <= k -> (pow2 k == inject_Z (2 ^ k))%Q.
Proof. intro H. unfold pow2. now rewrite Zpower_Qpower. Qed.

(** The exponent [ilog2] finds is not too large. *)
Lemma ilog2_lower x : (0 < x)%Q -> (pow2 (ilog2 x) <= x)%Q.
Proof.
  intro Hx. unfold ilog2.
  set (c := Z.log2 (Qnum x) - Z.log2 (Z.pos (Qden x))).
  destruct (Qle_bool (pow2 c) x) eqn:E; [now apply Qle_bool_iff|].
  destruct x as [n d]. cbn [Qnum Qden] in *.
  assert (Hn : 0 < n) by (unfold Qlt in Hx; simpl in Hx; lia).
  pose proof (Z.log2_spec n Hn) as [A _].
  pose proof (Z.log2_spec (Z.pos d) eq_refl) as [_ B].
  pose proof (Z.log2_nonneg n) as A0.
  pose proof (Z.log2_nonneg (Z.pos d)) as B0.
  set (a := Z.log2 n) in *. set (b := Z.log2 (Z.pos d)) in *.
  replace (c - 1) with (a + - (b + 1)) by (unfold c; lia).
  rewrite pow2_plus. unfold pow2 at 2. rewrite Qpower_opp.
  fold (pow2 (b + 1)). rewrite (pow2_inject a), (pow2_inject (b + 1)) by lia.
  rewrite (Qmake_Qdiv n d).
  assert (Hb : (0 < inject_Z (2 ^ (b + 1)))%Q).
  { change 0%Q with (inject_Z 0). rewrite <- Zlt_Qlt.
    apply Z.pow_pos_nonneg; lia. }
  assert (Hd : (0 < inject_Z (Z.pos d))%Q) by reflexivity.
  apply Qle_shift_div_l; [assumption|].
  setoid_replace (inject_Z (2 ^ a) * / inject_Z (2 ^ (b + 1)) * inject_Z (Z.pos d))%Q
    with (inject_Z (2 ^ a) * inject_Z (Z.pos d) / inject_Z (2 ^ (b + 1)))%Q
    by (field; lra).
  apply Qle_shift_div_r; [assumption|].
  rewrite <- !inject_Z_mult, <- Zle_Qle.
  unfold Z.succ in B. apply Z.mul_le_mono_nonneg; lia.
Qed.

(** A double is within one part in [2^53] of the number it stands for,
    as long as that number is at least the smallest normal double. *)
Lemma b64_near x :
  (pow2 (-1022) <= x)%Q ->
  (x - x * pow2 (-53) <= b64 x /\ b64 x <= x + x * pow2 (-53))%Q.
Proof.
  intro Hmin. assert (Hx : (0 < x)%Q).
  { eapply Qlt_le_trans; [apply (pow2_pos (-1022))|exact Hmin]. }
  assert (Hb : b64 x = b64_pos x).
  { unfold b64. destruct x as [[|n|n] d]; [| reflexivity |];
      unfold Qlt in Hx; simpl in Hx; lia. }
  rewrite Hb. unfold b64_pos.
  set (q := Z.max (ilog2 x - 52) (-1074)).
  assert (Hq : (pow2 (q + 52) <= x)%Q).
  { destruct (Z.max_spec (ilog2 x - 52) (-1074)) as [[_ E]|[_ E]];
      fold q in E; rewrite E.
    - exact Hmin.
    - replace (ilog2 x - 52 + 52) with (ilog2 x) by lia.
      now apply ilog2_lower. }
  rewrite pow2_plus in Hq.
  pose proof (pow2_pos q) as Hp. set (P := pow2 q) in *.
  destruct (round_half_even_near (x / P)) as [N1 N2].
  set (m := inject_Z (round_half_even (x / P))) in *.
  assert (E : (x == x / P * P)%Q) by (field; lra).
  assert (M1 : ((m - (1 # 2)) * P <= x / P * P)%Q)
    by (apply Qmult_le_compat_r; lra).
  assert (M2 : (x / P * P <= (m + (1 # 2)) * P)%Q)
    by (apply Qmult_le_compat_r; lra).
  rewrite <- E in M1, M2.
  change (pow2 52) with (4503599627370496 # 1)%Q in Hq.
  change (pow2 (-53)) with (1 # 9007199254740992)%Q.
  split; lra.
Qed.

(** The quotient 13/800 lies a hair above 0.01625 once it is a double, so
    that its rounding to four places is 0.0163 where the exact quotient,
    a tie, would give 0.0162. *)
Lemma defect_rate_of_13_in_800 :
  (py_round (b64 (13 / 800)) 4 == 0.0163 /\ py_round (13 / 800) 4 == 0.0162)%Q.
Proof. split; vm_compute; reflexivity. Qed.

(** A run of the operations loop whose first row has 800 units and 13
    defects stores the defect rate 0.0163. *)
Lemma operations_row_13_in_800 :
  exists df s' r rest,
    generate_operations_data tape 2000 [0; 1531223873305969] = Returns (df, s') /\
    rows df = r :: rest /\
    Operations.Units_Produced r = 800 /\
    Operations.Defects r = 13 /\
    (Operations.Defect_Rate r == 0.0163)%Q.
Proof.
  eexists _, _, _, _. split; [vm_compute; reflexivity|].
  split; [reflexivity|]. repeat split.
Qed.

Lemma round_half_even_below k y :
  (y < inject_Z k + (1 # 2))%Q -> round_half_even y <= k.
Proof.
  intro H. destruct (round_half_even_near y) as [Hlo _].
  destruct (Z_le_gt_dec (round_half_even y) k) as [|Hgt]; [assumption|].
  assert (Hq : (inject_Z (k + 1) <= inject_Z (round_half_even y))%Q)
    by (rewrite <- Zle_Qle; lia).
  rewrite inject_Z_plus in Hq. change (inject_Z 1) with 1%Q in Hq. lra.
Qed.

(** ** The sales rows, field by field *)

Section RowFields.

Variable R : RandomSource.
Hypothesis R_ok : lawful R.

Tactic Notation "draw_choice" ident(x) ident(H) :=
  apply returns_bind; apply (returns_choice R R_ok); [discriminate|];
  intros x ? H.

Tactic Notation "draw_randint" ident(x) ident(H) :=
  apply returns_bind; apply (returns_randint R R_ok); [lia|];
  intros x ? H.

Tactic Notation "draw_uniform" ident(x) ident(H0) ident(H1) :=
  apply returns_bind; apply (returns_uniform R R_ok);
  intros x ? H0 H1.

Lemma sales_returns_full n s :
  returns (generate_sales_data R n) s
    (fun df _ => Forall2 sales_row_full (range n) (rows df)).
Proof.
  unfold generate_sales_data. apply returns_bind. eapply returns_mono.
  { apply (returns_mapM R _
             (fun _ d => datetime 2022 1 1 <= d <= datetime 2022 1 1 + 1095)).
    intros x s0 _. draw_randint k Hk. apply returns_ret.
    unfold timedelta. lia. }
  intros dates s1 Hdates.
  pose proof (Forall2_length Hdates) as Hlen. rewrite range_length in Hlen.
  assert (Hin : Forall (fun d => datetime 2022 1 1 <= d <= datetime 2022 1 1 + 1095)
                       dates)
    by (eapply Forall2_Forall_r; [exact Hdates|]; auto).
  rewrite Forall_forall in Hin.
  apply returns_bind. eapply returns_mono.
  { apply (returns_mapM R _ sales_row_full).
    intros i s2 Hi. apply range_In in Hi.
    draw_choice cat Hcat.
    destruct Hcat as [<-|[<-|[<-|[]]]];
      cbn [dict_get String.eqb Ascii.eqb Bool.eqb];
      apply returns_bind, returns_ret.
    all: draw_choice subcat Hsubcat.
    all: draw_choice region Hregion.
    all: draw_choice segment Hsegment.
    all: draw_uniform u Hu0 Hu1.
    all: draw_randint qty Hqty.
    all: draw_choice discount Hdiscount.
    all: draw_uniform v Hv0 Hv1.
    all: apply returns_bind, (returns_getitem R); [lia|]; intros order_date Horder.
    all: apply returns_bind, (returns_getitem R); [lia|]; intros shipped Hshipped.
    all: draw_randint ship_days Hship.
    all: draw_randint product_no Hproduct.
    all: draw_randint customer_no Hcustomer.
    all: draw_choice state Hstate.
    all: apply returns_ret.
    all: assert (shipped = order_date) by congruence; subst shipped.
    all: pose proof (Hin order_date (nth_error_In _ _ Horder)) as Hdate.
    all: unfold sales_row_full, sales_row_ok, sales_category_ok,
           sales_row_priced, timedelta;
         cbn [Sales.Order_ID Sales.Order_Date Sales.Ship_Date Sales.Category
              Sales.Sub_Category Sales.Product_Name Sales.Sales Sales.Quantity
              Sales.Discount Sales.Profit Sales.Region Sales.Segment
              Sales.Customer_ID Sales.State].
    all: repeat match goal with |- _ /\ _ => split end;
           try reflexivity; try assumption; try lia.
    all: try (now (exists product_no)); try (now (exists customer_no)).
    all: try (first [ left; split; [reflexivity|assumption]
                    | right; left; split; [reflexivity|assumption]
                    | right; right; split; [reflexivity|assumption] ]).
    all: eexists _, _; (split; [|split; reflexivity]);
           cbn [price_range String.eqb Ascii.eqb Bool.eqb fst snd];
           repeat split; lra. }
  intros data s3 Hdata. now apply returns_ret.
Qed.

Lemma int_of_float_floor x : (0 <= x)%Q -> int_of_float x = Qfloor x.
Proof.
  intro Hx. unfold int_of_float.
  assert (Hn : 0 <= Qnum x) by (unfold Qle in Hx; simpl in Hx; lia).
  rewrite Z.quot_div_nonneg by lia. now destruct x.
Qed.

Lemma operations_returns_full n s :
  returns (generate_operations_data R n) s
    (fun df _ =>
       Forall2 operations_row_full
         (flat_map (fun date => map (fun shift => (date, shift))
                                    ["Morning"; "Evening"; "Night"]%string)
                   (date_range_D (datetime 2023 1 1) (datetime 2024 12 31)))
         (rows df)).
Proof.
  unfold generate_operations_data. apply returns_bind. eapply returns_mono.
  { apply (returns_mapM R _ operations_row_full).
    intros [date shift] s0 _. cbv beta iota.
    draw_randint production Hprod. draw_uniform u Hu0 Hu1.
    assert (Hp : (800 <= inject_Z production /\ inject_Z production <= 1200)%Q).
    { change 800%Q with (inject_Z 800). change 1200%Q with (inject_Z 1200).
      rewrite <- !Zle_Qle. lia. }
    set (rate := (0.01 + (0.05 - 0.01) * u)%Q).
    assert (Hrate : (0.01 <= rate /\ rate < 0.05)%Q) by (unfold rate; lra).
    set (x := (inject_Z production * rate)%Q).
    assert (Hx : (8 <= x /\ x < 60 /\ x <= inject_Z production /\
                  0.01 * inject_Z production <= x /\
                  x < 0.05 * inject_Z production)%Q)
      by (unfold x; nra).
    assert (Hfloor : int_of_float x = Qfloor x)
      by (apply int_of_float_floor; lra).
    assert (Hd : 8 <= int_of_float x <= 60 /\ int_of_float x <= production /\
                 20 * int_of_float x <= production /\
                 production < 100 * (int_of_float x + 1)).
    { rewrite Hfloor.
      pose proof (Qfloor_le x) as F1. pose proof (Qlt_floor x) as F2.
      rewrite inject_Z_plus in F2. change (inject_Z 1) with 1%Q in F2.
      assert (G1 : 7 < Qfloor x)
        by (rewrite Zlt_Qlt; change (inject_Z 7) with 7%Q; lra).
      assert (G2 : Qfloor x < 60)
        by (rewrite Zlt_Qlt; change (inject_Z 60) with 60%Q; lra).
      assert (G3 : Qfloor x <= production) by (rewrite Zle_Qle; lra).
      assert (G4 : 20 * Qfloor x < production).
      { rewrite Zlt_Qlt, inject_Z_mult. change (inject_Z 20) with 20%Q. lra. }
      assert (G5 : production < 100 * (Qfloor x + 1)).
      { rewrite Zlt_Qlt, inject_Z_mult, inject_Z_plus.
        change (inject_Z 100) with 100%Q. change (inject_Z 1) with 1%Q. lra. }
      lia. }
    draw_randint downtime Hdown.
    apply returns_bind, (returns_truediv R); [lia|].
    draw_uniform v Hv0 Hv1.
    draw_randint energy Henergy. draw_randint labor Hlabor.
    apply returns_ret.
    unfold operations_row_full, operations_row_ok;
      cbn [Operations.Date Operations.Shift Operations.Units_Produced
           Operations.Defects Operations.Defect_Rate Operations.Downtime_Minutes
           Operations.Efficiency Operations.Energy_Used Operations.Labor_Hours
           fst snd].
    repeat match goal with |- _ /\ _ => split end;
      try reflexivity; try lia.
    eexists. split; [|reflexivity]. lra. }
  intros data s1 Hdata. now apply returns_ret.
Qed.

Lemma customer_returns_full n s :
  returns (generate_customer_data R n) s
    (fun df _ => Forall2 customer_row_full (range n) (rows df)).
Proof.
  unfold generate_customer_data. apply returns_bind. eapply returns_mono.
  { apply (returns_mapM R _ customer_row_full).
    intros i s0 _.
    draw_randint signup_days Hsignup. draw_randint purchases Hpurchases.
    draw_uniform u Hu0 Hu1. draw_randint days_since_last Hdays.
    draw_randint satisfaction Hsat. draw_randint tickets Htickets.
    draw_choice segment Hsegment. apply returns_ret.
    unfold customer_row_full, customer_row_ok, timedelta;
      cbn [Customer.Customer_ID Customer.Signup_Date Customer.Total_Purchases
           Customer.Avg_Order_Value Customer.Lifetime_Value
           Customer.Days_Since_Last_Purchase Customer.Churned
           Customer.Satisfaction_Score Customer.Support_Tickets Customer.Segment].
    repeat match goal with |- _ /\ _ => split end;
      try reflexivity; try assumption; try lia.
    eexists. split; [|split; reflexivity]. lra. }
  intros data s1 Hdata. now apply returns_ret.
Qed.

Section FinancialFields.

Variable np_sin : float -> float.
Hypothesis np_sin_ok : sine_bounded np_sin.

Lemma financial_draw_returns_full i s :
  0 <= i ->
  returns (financial_draw R np_sin i) s (fun x _ => financial_raw_full i x).
Proof.
  intro Hi. unfold financial_draw.
  assert (Hq : (0 <= inject_Z i)%Q)
    by (change 0%Q with (inject_Z 0); now rewrite <- Zle_Qle).
  destruct (np_sin_ok (2 * np_pi * inject_Z i / 12)%Q) as [Hs1 Hs2].
  set (sn := np_sin (2 * np_pi * inject_Z i / 12)%Q) in *.
  fold (revenue_trend i).
  assert (Htrend : (500000 <= revenue_trend i)%Q) by (unfold revenue_trend; lra).
  set (trend := revenue_trend i) in *.
  assert (Hseason : (0.9 * trend <= trend * (1 + 0.1 * sn) /\
                     trend * (1 + 0.1 * sn) <= 1.1 * trend)%Q) by nra.
  set (seasonal := (trend * (1 + 0.1 * sn))%Q) in *.
  draw_uniform u Hu0 Hu1.
  set (revenue := (seasonal + (-20000 + (30000 - -20000) * u))%Q).
  assert (Hrev : (430000 <= revenue /\ 0.9 * trend - 20000 <= revenue /\
                  revenue <= 1.1 * trend + 30000)%Q) by (unfold revenue; lra).
  draw_uniform v Hv0 Hv1. draw_uniform w Hw0 Hw1.
  set (cogs := (revenue * (0.55 + (0.65 - 0.55) * v))%Q).
  set (opex := (revenue * (0.20 + (0.30 - 0.20) * w))%Q).
  assert (Hcosts : (0.55 * revenue <= cogs /\ cogs <= 0.65 * revenue /\
                    0.20 * revenue <= opex /\ opex <= 0.30 * revenue)%Q)
    by (unfold cogs, opex; nra).
  draw_uniform b Hb0 Hb1. draw_uniform c Hc0 Hc1. apply returns_ret.
  unfold financial_raw_full;
    cbn [raw_revenue raw_cogs raw_opex raw_budget raw_cash].
  fold trend. fold revenue. fold cogs. fold opex.
  set (profit := (revenue - cogs - opex)%Q).
  assert (Hprofit : (0 <= profit)%Q) by (unfold profit; lra).
  repeat match goal with |- _ /\ _ => split end; try lra; nra.
Qed.

Lemma financial_returns_full s :
  returns (generate_financial_data R np_sin) s
    (fun df _ => Forall2 financial_row_full (enumerate financial_months) (rows df)).
Proof.
  unfold generate_financial_data. apply returns_bind. eapply returns_mono.
  { apply (returns_mapM R _ financial_row_full).
    intros [i month] s0 Him. apply enumerate_index in Him.
    cbv beta iota. apply returns_bind.
    eapply returns_mono; [now apply financial_draw_returns_full|].
    intros x s1 Hx. apply returns_ret. split; [assumption|]. now exists x. }
  intros data s1 Hdata. now apply returns_ret.
Qed.

End FinancialFields.

End RowFields.

(** ** Every row of a generator *)

(** What holds of every round of a generator holds of every row of the
    data frame it returns, and it does return. *)
Lemma sales_rows_all (R : RandomSource) n s (P : Sales.t -> Prop) :
  lawful R -> (forall i r, sales_row_full i r -> P r) ->
  exists df s', generate_sales_data R n s = Returns (df, s') /\ Forall P (rows df).
Proof.
  intros HR HP.
  destruct (returns_elim R _ _ _ (sales_returns_full R HR n s)) as (df & s' & E & H).
  exists df, s'. split; [assumption|]. eapply Forall2_Forall_r; eauto.
Qed.

Lemma operations_rows_all (R : RandomSource) n s (P : Operations.t -> Prop) :
  lawful R -> (forall ds r, operations_row_full ds r -> P r) ->
  exists df s',
    generate_operations_data R n s = Returns (df, s') /\ Forall P (rows df).
Proof.
  intros HR HP.
  destruct (returns_elim R _ _ _ (operations_returns_full R HR n s))
    as (df & s' & E & H).
  exists df, s'. split; [assumption|]. eapply Forall2_Forall_r; eauto.
Qed.

Lemma financial_rows_all (R : RandomSource) np_sin s (P : Financial.t -> Prop) :
  lawful R -> sine_bounded np_sin ->
  (forall im r, financial_row_full im r -> P r) ->
  exists df s',
    generate_financial_data R np_sin s = Returns (df, s') /\ Forall P (rows df).
Proof.
  intros HR Hsin HP.
  destruct (returns_elim R _ _ _ (financial_returns_full R HR np_sin Hsin s))
    as (df & s' & E & H).
  exists df, s'. split; [assumption|]. eapply Forall2_Forall_r; eauto.
Qed.

Lemma customer_rows_all (R : RandomSource) n s (P : Customer.t -> Prop) :
  lawful R -> (forall i r, customer_row_full i r -> P r) ->
  exists df s',
    generate_customer_data R n s = Returns (df, s') /\ Forall P (rows df).
Proof.
  intros HR HP.
  destruct (returns_elim R _ _ _ (customer_returns_full R HR n s))
    as (df & s' & E & H).
  exists df, s'. split; [assumption|]. eapply Forall2_Forall_r; eauto.
Qed.

(** ** Sales *)

(** X1: the order identifiers of [generate_sales_data] are ORD- followed by
    1000, 1001, ... in the order of the rows, hence pairwise distinct. *)
Theorem sales_order_ids_distinct (R : RandomSource) (n : Z) (s : rstate R) :
  lawful R ->
  exists df s',
    generate_sales_data R n s = Returns (df, s') /\
    map Sales.Order_ID (rows df)
      = map (fun i => "ORD-" ++ str (i + 1000))%string (range n) /\
    NoDup (map Sales.Order_ID (rows df)).
Proof.
  intros HR.
  destruct (returns_elim R _ _ _ (sales_returns R HR n s))
    as (df & s' & E & _ & Hrows).
  exists df, s'. split; [assumption|].
  assert (Hids : map Sales.Order_ID (rows df)
                 = map (fun i => "ORD-" ++ str (i + 1000))%string (range n)).
  { apply Forall2_map_eq. eapply Forall2_impl; [|exact Hrows].
    intros i r (Hid & _). exact Hid. }
  split; [assumption|]. rewrite Hids.
  apply Injective_map_NoDup; [|apply range_NoDup].
  intros i j Hij. injection Hij as Hij. apply str_inj in Hij. lia.
Qed.

Lemma sales_order_ids_distinct_witness :
  lawful tape /\
  exists df s',
    generate_sales_data tape 3 [31; 32; 33] = Returns (df, s') /\
    map Sales.Order_ID (rows df)
      = map (fun i => "ORD-" ++ str (i + 1000))%string (range 3) /\
    NoDup (map Sales.Order_ID (rows df)).
Proof.
  split; [exact tape_lawful|].
  apply (sales_order_ids_distinct tape 3 [31; 32; 33] tape_lawful).
Defined.

(** X2: every order of [generate_sales_data] is dated from 2022-01-01 to
    2024-12-31, and shipped from 2022-01-02 to 2025-01-07. *)
Theorem sales_dates_in_window (R : RandomSource) (n : Z) (s : rstate R) :
  lawful R ->
  exists df s',
    generate_sales_data R n s = Returns (df, s') /\
    Forall (fun r =>
      datetime 2022 1 1 <= Sales.Order_Date r <= datetime 2024 12 31 /\
      datetime 2022 1 2 <= Sales.Ship_Date r <= datetime 2025 1 7) (rows df).
Proof.
  intros HR. apply sales_rows_all; [assumption|].
  intros i r ((_ & Hship & _) & Hdate & _).
  assert (E1 : datetime 2024 12 31 = datetime 2022 1 1 + 1095)
    by (vm_compute; reflexivity).
  assert (E2 : datetime 2022 1 2 = datetime 2022 1 1 + 1)
    by (vm_compute; reflexivity).
  assert (E3 : datetime 2025 1 7 = datetime 2022 1 1 + 1102)
    by (vm_compute; reflexivity).
  rewrite E1, E2, E3. revert Hship Hdate.
  generalize (datetime 2022 1 1). intros start Hship Hdate. lia.
Qed.

Lemma sales_dates_in_window_witness :
  lawful tape /\
  exists df s',
    generate_sales_data tape 2 [1095; 0; 1; 1; 1; 1; 1; 1; 1; 1; 6]
      = Returns (df, s') /\
    Forall (fun r =>
      datetime 2022 1 1 <= Sales.Order_Date r <= datetime 2024 12 31 /\
      datetime 2022 1 2 <= Sales.Ship_Date r <= datetime 2025 1 7) (rows df).
Proof.
  split; [exact tape_lawful|].
  apply (sales_dates_in_window tape 2 [1095; 0; 1; 1; 1; 1; 1; 1; 1; 1; 6]
           tape_lawful).
Defined.

(** X3: in every sales row the sub-category is one of those the code lists
    under the category of the row, and the product name is the
    sub-category, a space and a number from 100 to 999. *)
Theorem sales_category_consistent (R : RandomSource) (n : Z) (s : rstate R) :
  lawful R ->
  exists df s',
    generate_sales_data R n s = Returns (df, s') /\
    Forall (fun r =>
      sales_category_ok r /\
      exists k, 100 <= k <= 999 /\
        Sales.Product_Name r = (Sales.Sub_Category r ++ " " ++ str k)%string)
      (rows df).
Proof.
  intros HR. apply sales_rows_all; [assumption|].
  intros i r (_ & _ & Hcat & Hname & _). now split.
Qed.

Lemma sales_category_consistent_witness :
  lawful tape /\
  exists df s',
    generate_sales_data tape 2 [5; 6; 1; 2; 0; 0; 0; 3] = Returns (df, s') /\
    Forall (fun r =>
      sales_category_ok r /\
      exists k, 100 <= k <= 999 /\
        Sales.Product_Name r = (Sales.Sub_Category r ++ " " ++ str k)%string)
      (rows df).
Proof.
  split; [exact tape_lawful|].
  apply (sales_category_consistent tape 2 [5; 6; 1; 2; 0; 0; 0; 3] tape_lawful).
Defined.

(** X4: in every sales row the quantity is from 1 to 10, the region, the
    segment and the state are taken from the three fixed lists of the code,
    and the customer identifier is CUST- followed by a number from 1000 to
    9999. *)
Theorem sales_field_ranges (R : RandomSource) (n : Z) (s : rstate R) :
  lawful R ->
  exists df s',
    generate_sales_data R n s = Returns (df, s') /\
    Forall (fun r =>
      1 <= Sales.Quantity r <= 10 /\
      In (Sales.Region r) ["East"; "West"; "Central"; "South"]%string /\
      In (Sales.Segment r) ["Consumer"; "Corporate"; "Home Office"]%string /\
      In (Sales.State r) ["California"; "Texas"; "New York"; "Florida";
                          "Illinois"; "Pennsylvania"; "Ohio"; "Georgia"]%string /\
      exists k, 1000 <= k <= 9999 /\
        Sales.Customer_ID r = ("CUST-" ++ str k)%string) (rows df).
Proof.
  intros HR. apply sales_rows_all; [assumption|].
  intros i r (_ & _ & _ & _ & Hq & Hregion & Hsegment & Hstate & Hcust & _).
  repeat (split; [assumption|]). assumption.
Qed.

Lemma sales_field_ranges_witness :
  lawful tape /\
  exists df s',
    generate_sales_data tape 1 [9; 2; 3; 3; 2; 7; 9; 4; 0; 6; 899; 8999; 7]
      = Returns (df, s') /\
    Forall (fun r =>
      1 <= Sales.Quantity r <= 10 /\
      In (Sales.Region r) ["East"; "West"; "Central"; "South"]%string /\
      In (Sales.Segment r) ["Consumer"; "Corporate"; "Home Office"]%string /\
      In (Sales.State r) ["California"; "Texas"; "New York"; "Florida";
                          "Illinois"; "Pennsylvania"; "Ohio"; "Georgia"]%string /\
      exists k, 1000 <= k <= 9999 /\
        Sales.Customer_ID r = ("CUST-" ++ str k)%string) (rows df).
Proof.
  split; [exact tape_lawful|].
  apply (sales_field_ranges tape 1
           [9; 2; 3; 3; 2; 7; 9; 4; 0; 6; 899; 8999; 7] tape_lawful).
Defined.

Lemma sale_amount_bounds (price d lo hi : Q) (q : Z) :
  (0 < lo)%Q -> (lo <= price)%Q -> (price <= hi)%Q -> 1 <= q <= 10 ->
  In d [0; 0.1; 0.15; 0.2; 0.25]%Q ->
  (0.75 * lo <= price * inject_Z q * (1 - d) /\
   price * inject_Z q * (1 - d) <= 10 * hi)%Q.
Proof.
  intros Hlo H1 H2 Hq Hd.
  assert (Hq' : (1 <= inject_Z q /\ inject_Z q <= 10)%Q).
  { change 1%Q with (inject_Z 1). change 10%Q with (inject_Z 10).
    rewrite <- !Zle_Qle. lia. }
  assert (Hpq : (lo <= price * inject_Z q /\ price * inject_Z q <= 10 * hi)%Q)
    by nra.
  set (pq := (price * inject_Z q)%Q) in *.
  destruct Hd as [<-|[<-|[<-|[<-|[<-|[]]]]]]; split; lra.
Qed.

Lemma sales_row_amounts i r :
  sales_row_full i r ->
  (0.75 * fst (price_range (Sales.Category r)) <= Sales.Sales r /\
   Sales.Sales r <= 10 * snd (price_range (Sales.Category r)) /\
   3.75 <= Sales.Sales r /\ Sales.Sales r <= 20000 /\
   0.19 <= Sales.Profit r /\ Sales.Profit r <= Sales.Sales r)%Q.
Proof.
  intros ((_ & _ & Hdisc) & _ & Hcat & _ & Hq & _ & _ & _ & _ & Hprice).
  destruct Hprice as (price & margin & (P1 & P2 & M1 & M2) & -> & ->).
  set (x := (price * inject_Z (Sales.Quantity r) * (1 - Sales.Discount r))%Q).
  assert (Hx : (0.75 * fst (price_range (Sales.Category r)) <= x /\
                x <= 10 * snd (price_range (Sales.Category r)) /\
                3.75 <= x /\ x <= 20000)%Q).
  { destruct Hcat as [[Hc _]|[[Hc _]|[Hc _]]]; rewrite Hc in *;
      cbn [price_range String.eqb Ascii.eqb Bool.eqb fst snd] in *;
      pose proof (fun H => sale_amount_bounds price (Sales.Discount r) _ _
                              (Sales.Quantity r) H P1 P2 Hq Hdisc) as B;
      destruct (B eq_refl) as [B1 B2]; fold x in B1, B2; repeat split; lra. }
  destruct Hx as (X1 & X2 & X3 & X4).
  assert (Hprofit : (0.1875 <= x * margin /\ x * margin <= x)%Q) by nra.
  pose proof (py_round_mono _ _ 2 ltac:(lia) X1) as R1.
  pose proof (py_round_mono _ _ 2 ltac:(lia) X2) as R2.
  pose proof (py_round_mono _ _ 2 ltac:(lia) X3) as R3.
  pose proof (py_round_mono _ _ 2 ltac:(lia) X4) as R4.
  pose proof (py_round_mono _ _ 2 ltac:(lia) (proj1 Hprofit)) as R5.
  pose proof (py_round_mono _ _ 2 ltac:(lia) (proj2 Hprofit)) as R6.
  assert (E3 : (py_round 3.75 2 == 3.75)%Q) by (vm_compute; reflexivity).
  assert (E4 : (py_round 20000 2 == 20000)%Q) by (vm_compute; reflexivity).
  assert (E5 : (py_round 0.1875 2 == 0.19)%Q) by (vm_compute; reflexivity).
  repeat split; try lra.
  - destruct Hcat as [[Hc _]|[[Hc _]|[Hc _]]]; rewrite Hc in *;
      cbn [price_range String.eqb Ascii.eqb Bool.eqb fst snd] in *.
    + assert (E : (py_round (0.75 * 50) 2 == 0.75 * 50)%Q)
        by (vm_compute; reflexivity). lra.
    + assert (E : (py_round (0.75 * 100) 2 == 0.75 * 100)%Q)
        by (vm_compute; reflexivity). lra.
    + assert (E : (py_round (0.75 * 5) 2 == 0.75 * 5)%Q)
        by (vm_compute; reflexivity). lra.
  - destruct Hcat as [[Hc _]|[[Hc _]|[Hc _]]]; rewrite Hc in *;
      cbn [price_range String.eqb Ascii.eqb Bool.eqb fst snd] in *.
    + assert (E : (py_round (10 * 2000) 2 == 10 * 2000)%Q)
        by (vm_compute; reflexivity). lra.
    + assert (E : (py_round (10 * 1500) 2 == 10 * 1500)%Q)
        by (vm_compute; reflexivity). lra.
    + assert (E : (py_round (10 * 300) 2 == 10 * 300)%Q)
        by (vm_compute; reflexivity). lra.
Qed.


(** X5: the stored sales amount of a row lies between three quarters of
    the lowest unit price of its category and ten times the highest, so
    between 3.75 and 20000 whatever the category, and the stored profit is
    at least 0.19 and at most the stored sales amount: no row is sold at a
    loss. *)
Theorem sales_amount_bounds (R : RandomSource) (n : Z) (s : rstate R) :
  lawful R ->
  exists df s',
    generate_sales_data R n s = Returns (df, s') /\
    Forall (fun r =>
      (0.75 * fst (price_range (Sales.Category r)) <= Sales.Sales r /\
       Sales.Sales r <= 10 * snd (price_range (Sales.Category r)) /\
       3.75 <= Sales.Sales r /\ Sales.Sales r <= 20000 /\
       0.19 <= Sales.Profit r /\ Sales.Profit r <= Sales.Sales r)%Q) (rows df).
Proof.
  intros HR. apply sales_rows_all; [assumption|]. exact sales_row_amounts.
Qed.

Lemma sales_amount_bounds_witness :
  lawful tape /\
  exists df s',
    generate_sales_data tape 2 [0; 0; 2; 0; 0; 0; 0; 0; 4] = Returns (df, s') /\
    Forall (fun r =>
      (0.75 * fst (price_range (Sales.Category r)) <= Sales.Sales r /\
       Sales.Sales r <= 10 * snd (price_range (Sales.Category r)) /\
       3.75 <= Sales.Sales r /\ Sales.Sales r <= 20000 /\
       0.19 <= Sales.Profit r /\ Sales.Profit r <= Sales.Sales r)%Q) (rows df).
Proof.
  split; [exact tape_lawful|].
  apply (sales_amount_bounds tape 2 [0; 0; 2; 0; 0; 0; 0; 0; 4] tape_lawful).
Defined.

(** ** Operations *)

Lemma NoDup_flat_map_pairs {A B : Type} (l : list A) (l' : list B) :
  NoDup l -> NoDup l' ->
  NoDup (flat_map (fun a => map (fun b => (a, b)) l') l).
Proof.
  intros Hl Hl'. induction Hl as [|a l Ha Hl IH]; simpl; [constructor|].
  apply NoDup_app.
  - apply Injective_map_NoDup; [|assumption]. intros b b' E. now injection E.
  - exact IH.
  - intros [a' b] Hin Hin'. apply in_map_iff in Hin as (b0 & E & _).
    injection E as <- _. apply in_flat_map in Hin' as (a0 & Ha0 & Hin').
    apply in_map_iff in Hin' as (b1 & E & _). injection E as -> _.
    contradiction.
Qed.

Lemma date_range_D_NoDup start stop : NoDup (date_range_D start stop).
Proof.
  unfold date_range_D. apply Injective_map_NoDup; [|apply range_NoDup].
  intros a b. lia.
Qed.

(** X6: the rows of [generate_operations_data] are, in order, the days
    from 2023-01-01 to 2024-12-31, each with the shifts Morning, Evening
    and Night in this order; no day and shift comes twice. *)
Theorem operations_layout (R : RandomSource) (n : Z) (s : rstate R) :
  lawful R ->
  exists df s',
    generate_operations_data R n s = Returns (df, s') /\
    map (fun r => (Operations.Date r, Operations.Shift r)) (rows df)
      = flat_map (fun date => [(date, "Morning"); (date, "Evening");
                               (date, "Night")]%string)
                 (date_range_D (datetime 2023 1 1) (datetime 2024 12 31)) /\
    NoDup (map (fun r => (Operations.Date r, Operations.Shift r)) (rows df)).
Proof.
  intros HR.
  destruct (returns_elim R _ _ _ (operations_returns R HR n s))
    as (df & s' & E & _ & Hrows).
  exists df, s'. split; [assumption|].
  assert (Hkeys : map (fun r => (Operations.Date r, Operations.Shift r)) (rows df)
                  = flat_map (fun date => map (fun shift => (date, shift))
                                              ["Morning"; "Evening"; "Night"]%string)
                      (date_range_D (datetime 2023 1 1) (datetime 2024 12 31))).
  { rewrite <- (map_id (flat_map _ _)). apply Forall2_map_eq.
    eapply Forall2_impl; [|exact Hrows].
    intros [d sh] r (Hd & Hs & _). cbn [fst snd] in *. now rewrite Hd, Hs. }
  split; [exact Hkeys|]. rewrite Hkeys.
  apply NoDup_flat_map_pairs; [apply date_range_D_NoDup|].
  repeat constructor; cbn; intuition discriminate.
Qed.

Lemma operations_layout_witness :
  lawful tape /\
  exists df s',
    generate_operations_data tape 2000 [41; 42; 43] = Returns (df, s') /\
    map (fun r => (Operations.Date r, Operations.Shift r)) (rows df)
      = flat_map (fun date => [(date, "Morning"); (date, "Evening");
                               (date, "Night")]%string)
                 (date_range_D (datetime 2023 1 1) (datetime 2024 12 31)) /\
    NoDup (map (fun r => (Operations.Date r, Operations.Shift r)) (rows df)).
Proof.
  split; [exact tape_lawful|].
  apply (operations_layout tape 2000 [41; 42; 43] tape_lawful).
Defined.

(** X7: in every operations row the units produced are from 800 to 1200,
    the defects from 8 to 60, at most a twentieth of the units and more
    than one short of a hundredth of them, the stored defect rate from
    0.0087 to 0.05, the downtime from 0 to 120, the efficiency from 0.75
    to 0.98, the energy from 500 to 800 and the labor hours from 150 to
    200. *)
Theorem operations_field_ranges (R : RandomSource) (n : Z) (s : rstate R) :
  lawful R ->
  exists df s',
    generate_operations_data R n s = Returns (df, s') /\
    Forall (fun r =>
      800 <= Operations.Units_Produced r <= 1200 /\
      8 <= Operations.Defects r <= 60 /\
      20 * Operations.Defects r <= Operations.Units_Produced r /\
      Operations.Units_Produced r < 100 * (Operations.Defects r + 1) /\
      (0.0087 <= Operations.Defect_Rate r /\ Operations.Defect_Rate r <= 0.05)%Q /\
      0 <= Operations.Downtime_Minutes r <= 120 /\
      (0.75 <= Operations.Efficiency r /\ Operations.Efficiency r <= 0.98)%Q /\
      500 <= Operations.Energy_Used r <= 800 /\
      150 <= Operations.Labor_Hours r <= 200) (rows df).
Proof.
  intros HR. apply operations_rows_all; [assumption|].
  intros ds r ((_ & _ & Hunits & _ & Hrate) & Hdef & Hd20 & Hd100 & Hdown
               & (e & (He1 & He2) & Heff) & Henergy & Hlabor).
  repeat (split; [assumption|]).
  split; [|split; [assumption|split; [|split; assumption]]].
  - rewrite Hrate.
    set (d := Operations.Defects r) in *.
    set (p := Operations.Units_Produced r) in *.
    assert (Hp : (0 < inject_Z p)%Q)
      by (change 0%Q with (inject_Z 0); rewrite <- Zlt_Qlt; lia).
    rewrite Zle_Qle, inject_Z_mult in Hd20.
    rewrite Zlt_Qlt, inject_Z_mult, inject_Z_plus in Hd100.
    change (inject_Z 20) with 20%Q in Hd20.
    change (inject_Z 100) with 100%Q in Hd100.
    change (inject_Z 1) with 1%Q in Hd100.
    assert (Hp3 : (800 <= inject_Z p)%Q)
      by (change 800%Q with (inject_Z 800); rewrite <- Zle_Qle; lia).
    set (z := (inject_Z d / inject_Z p)%Q).
    assert (Hlo : (0.00875 <= z)%Q)
      by (apply Qle_shift_div_l; [assumption|]; lra).
    assert (Hhi : (z <= 0.05)%Q)
      by (apply Qle_shift_div_r; [assumption|]; lra).
    destruct (b64_near z) as [B1 B2].
    { eapply Qle_trans; [|exact Hlo]. vm_compute. discriminate. }
    change (pow2 (-53)) with (1 # 9007199254740992)%Q in B1, B2.
    unfold py_round. change (10 ^ 4) with 10000.
    change (inject_Z 10000) with 10000%Q.
    assert (G1 : 87 <= round_half_even (b64 z * 10000)).
    { apply round_half_even_ge. change (inject_Z 87) with 87%Q. lra. }
    assert (G2 : round_half_even (b64 z * 10000) <= 500).
    { apply round_half_even_below. change (inject_Z 500) with 500%Q. lra. }
    rewrite Zle_Qle in G1, G2.
    change (inject_Z 87) with 87%Q in G1. change (inject_Z 500) with 500%Q in G2.
    split.
    + apply Qle_shift_div_l; lra.
    + apply Qle_shift_div_r; lra.
  - rewrite Heff.
    pose proof (py_round_mono _ _ 3 ltac:(lia) He1) as R1.
    pose proof (py_round_mono _ _ 3 ltac:(lia) He2) as R2.
    assert (E1 : (py_round 0.75 3 == 0.75)%Q) by (vm_compute; reflexivity).
    assert (E2 : (py_round 0.98 3 == 0.98)%Q) by (vm_compute; reflexivity).
    split; lra.
Qed.

Lemma operations_field_ranges_witness :
  lawful tape /\
  exists df s',
    generate_operations_data tape 2000 [400; 9007199254740991; 120]
      = Returns (df, s') /\
    Forall (fun r =>
      800 <= Operations.Units_Produced r <= 1200 /\
      8 <= Operations.Defects r <= 60 /\
      20 * Operations.Defects r <= Operations.Units_Produced r /\
      Operations.Units_Produced r < 100 * (Operations.Defects r + 1) /\
      (0.0087 <= Operations.Defect_Rate r /\ Operations.Defect_Rate r <= 0.05)%Q /\
      0 <= Operations.Downtime_Minutes r <= 120 /\
      (0.75 <= Operations.Efficiency r /\ Operations.Efficiency r <= 0.98)%Q /\
      500 <= Operations.Energy_Used r <= 800 /\
      150 <= Operations.Labor_Hours r <= 200) (rows df).
Proof.
  split; [exact tape_lawful|].
  apply (operations_field_ranges tape 2000 [400; 9007199254740991; 120]
           tape_lawful).
Defined.

(** ** Financial *)

Lemma py_round2_le k x : (x <= inject_Z k)%Q -> (py_round x 2 <= inject_Z k)%Q.
Proof.
  intro H. unfold py_round. change (10 ^ 2) with 100.
  assert (Hk : round_half_even (x * inject_Z 100) <= 100 * k).
  { apply round_half_even_le. rewrite inject_Z_mult.
    change (inject_Z 100) with 100%Q. lra. }
  rewrite Zle_Qle, inject_Z_mult in Hk.
  change (inject_Z 100) with 100%Q in *.
  apply Qle_shift_div_r; lra.
Qed.

Lemma Forall2_map_l {A B C : Type} (f : A -> C) (P : C -> B -> Prop) l l' :
  Forall2 (fun x y => P (f x) y) l l' -> Forall2 P (map f l) l'.
Proof.
  intro H. induction H; simpl; constructor; assumption.
Qed.

Lemma financial_raw_full_revenue i x :
  0 <= i -> financial_raw_full i x -> (430000 <= raw_revenue x)%Q.
Proof.
  intros Hi (H1 & _).
  assert (Hq : (0 <= inject_Z i)%Q)
    by (change 0%Q with (inject_Z 0); now rewrite <- Zle_Qle).
  unfold revenue_trend in H1. lra.
Qed.

(** X8: in every financial row the stored amounts are ordered: the
    operating expenses, at least 86000, are at most the cost of goods,
    which is at most the revenue; the net profit is at most the gross
    profit, which is at most the revenue. *)
Theorem financial_amounts_ordered (R : RandomSource) np_sin (s : rstate R) :
  lawful R -> sine_bounded np_sin ->
  exists df s',
    generate_financial_data R np_sin s = Returns (df, s') /\
    Forall (fun r =>
      (86000 <= Financial.Operating_Expenses r /\
       Financial.Operating_Expenses r <= Financial.COGS r /\
       Financial.COGS r <= Financial.Revenue r /\
       Financial.Net_Profit r <= Financial.Gross_Profit r /\
       Financial.Gross_Profit r <= Financial.Revenue r)%Q) (rows df).
Proof.
  intros HR Hsin. apply financial_rows_all; [assumption|assumption|].
  intros im r (Hi & x & -> & Hx).
  pose proof (financial_raw_full_revenue _ _ Hi Hx) as Hrev.
  destruct Hx as (_ & _ & C1 & C2 & O1 & O2 & _).
  unfold financial_round.
  cbn [Financial.Revenue Financial.COGS Financial.Operating_Expenses
       Financial.Gross_Profit Financial.Net_Profit].
  split; [apply (py_round2_ge 86000); change (inject_Z 86000) with 86000%Q; lra|].
  repeat split; apply py_round_mono; try lia; lra.
Qed.

Lemma financial_amounts_ordered_witness :
  lawful tape /\ sine_bounded sin_ref /\
  exists df s',
    generate_financial_data tape sin_ref [51; 52; 53] = Returns (df, s') /\
    Forall (fun r =>
      (86000 <= Financial.Operating_Expenses r /\
       Financial.Operating_Expenses r <= Financial.COGS r /\
       Financial.COGS r <= Financial.Revenue r /\
       Financial.Net_Profit r <= Financial.Gross_Profit r /\
       Financial.Gross_Profit r <= Financial.Revenue r)%Q) (rows df).
Proof.
  split; [exact tape_lawful|]. split; [exact sin_ref_bounded|].
  apply (financial_amounts_ordered tape sin_ref [51; 52; 53]
           tape_lawful sin_ref_bounded).
Defined.

(** X9: the stored revenue of the month of index [i], counted from 0 for
    2022-01, lies between 430000 + 6750 i and 580000 + 8250 i: the window
    moves up with the trend, and no revenue exceeds 868750. *)
Theorem revenue_window (R : RandomSource) np_sin (s : rstate R) :
  lawful R -> sine_bounded np_sin ->
  exists df s',
    generate_financial_data R np_sin s = Returns (df, s') /\
    Forall2 (fun i r =>
      (inject_Z (430000 + 6750 * i) <= Financial.Revenue r /\
       Financial.Revenue r <= inject_Z (580000 + 8250 * i) /\
       Financial.Revenue r <= 868750)%Q) (range 36) (rows df).
Proof.
  intros HR Hsin.
  destruct (returns_elim R _ _ _ (financial_returns_full R HR np_sin Hsin s))
    as (df & s' & E & Hrows).
  exists df, s'. split; [assumption|].
  change (range 36) with (map fst (enumerate financial_months)).
  apply Forall2_map_l.
  assert (Hidx : Forall (fun im : Z * datetime_t => fst im <= 35)
                        (enumerate financial_months)).
  { apply Forall_forall. intros [i m] Him. apply in_combine_l in Him.
    apply range_In in Him. cbn [fst].
    change (Z.of_nat (List.length financial_months)) with 36 in Him. lia. }
  rewrite Forall_forall in Hidx.
  assert (Hrows' : Forall2 (fun im r => In im (enumerate financial_months) /\
                                        financial_row_full im r)
                           (enumerate financial_months) (rows df)).
  { clear -Hrows. induction Hrows; constructor.
    - split; [now left|assumption].
    - eapply Forall2_impl; [|exact IHHrows].
      intros a b [Ha Hb]. split; [now right|assumption]. }
  eapply Forall2_impl; [|exact Hrows'].
  intros [i m] r (Him & Hi & x & -> & H1 & H2 & _).
  apply Hidx in Him. cbn [fst snd] in *.
  unfold financial_round. cbn [Financial.Revenue].
  assert (Hq : (0 <= inject_Z i /\ inject_Z i <= 35)%Q).
  { change 0%Q with (inject_Z 0). change 35%Q with (inject_Z 35).
    rewrite <- !Zle_Qle. lia. }
  unfold revenue_trend in H1, H2.
  assert (L : (inject_Z (430000 + 6750 * i) <= raw_revenue x)%Q).
  { rewrite inject_Z_plus, inject_Z_mult.
    change (inject_Z 430000) with 430000%Q. change (inject_Z 6750) with 6750%Q.
    lra. }
  assert (U : (raw_revenue x <= inject_Z (580000 + 8250 * i))%Q).
  { rewrite inject_Z_plus, inject_Z_mult.
    change (inject_Z 580000) with 580000%Q. change (inject_Z 8250) with 8250%Q.
    lra. }
  split; [now apply py_round2_ge|]. split; [now apply py_round2_le|].
  apply (py_round2_le 868750). change (inject_Z 868750) with 868750%Q. lra.
Qed.

Lemma revenue_window_witness :
  lawful tape /\ sine_bounded sin_ref /\
  exists df s',
    generate_financial_data tape sin_ref [9007199254740991; 0; 0; 0; 0; 1]
      = Returns (df, s') /\
    Forall2 (fun i r =>
      (inject_Z (430000 + 6750 * i) <= Financial.Revenue r /\
       Financial.Revenue r <= inject_Z (580000 + 8250 * i) /\
       Financial.Revenue r <= 868750)%Q) (range 36) (rows df).
Proof.
  split; [exact tape_lawful|]. split; [exact sin_ref_bounded|].
  apply (revenue_window tape sin_ref [9007199254740991; 0; 0; 0; 0; 1]
           tape_lawful sin_ref_bounded).
Defined.

(** X10: in every financial row the stored budget is within a tenth of the
    stored revenue, and the stored cash flow within a fifth of the stored
    net profit, two cents of rounding apart; the cash flow is at least
    17200. *)
Theorem budget_and_cash_flow_close (R : RandomSource) np_sin (s : rstate R) :
  lawful R -> sine_bounded np_sin ->
  exists df s',
    generate_financial_data R np_sin s = Returns (df, s') /\
    Forall (fun r =>
      (Qabs (Financial.Budget_Revenue r - Financial.Revenue r)
         <= 0.1 * Financial.Revenue r + 0.02 /\
       Qabs (Financial.Cash_Flow r - Financial.Net_Profit r)
         <= 0.2 * Financial.Net_Profit r + 0.02 /\
       17200 <= Financial.Cash_Flow r)%Q) (rows df).
Proof.
  intros HR Hsin. apply financial_rows_all; [assumption|assumption|].
  intros im r (Hi & x & -> & Hx).
  pose proof (financial_raw_full_revenue _ _ Hi Hx) as Hrev.
  destruct Hx as (_ & _ & C1 & C2 & O1 & O2 & B1 & B2 & F1 & F2).
  unfold financial_round.
  cbn [Financial.Revenue Financial.Net_Profit Financial.Budget_Revenue
       Financial.Cash_Flow].
  set (profit := (raw_revenue x - raw_cogs x - raw_opex x)%Q) in *.
  assert (Hprofit : (21500 <= profit)%Q) by (unfold profit; lra).
  destruct (py_round2_near (raw_revenue x)) as [N1 N2].
  destruct (py_round2_near (raw_budget x)) as [N3 N4].
  destruct (py_round2_near profit) as [N5 N6].
  destruct (py_round2_near (raw_cash x)) as [N7 N8].
  split; [|split].
  - apply Qabs_Qle_condition. split; lra.
  - apply Qabs_Qle_condition. split; lra.
  - apply (py_round2_ge 17200). change (inject_Z 17200) with 17200%Q. lra.
Qed.

Lemma budget_and_cash_flow_close_witness :
  lawful tape /\ sine_bounded sin_ref /\
  exists df s',
    generate_financial_data tape sin_ref [0; 0; 0; 9007199254740991; 0]
      = Returns (df, s') /\
    Forall (fun r =>
      (Qabs (Financial.Budget_Revenue r - Financial.Revenue r)
         <= 0.1 * Financial.Revenue r + 0.02 /\
       Qabs (Financial.Cash_Flow r - Financial.Net_Profit r)
         <= 0.2 * Financial.Net_Profit r + 0.02 /\
       17200 <= Financial.Cash_Flow r)%Q) (rows df).
Proof.
  split; [exact tape_lawful|]. split; [exact sin_ref_bounded|].
  apply (budget_and_cash_flow_close tape sin_ref
           [0; 0; 0; 9007199254740991; 0] tape_lawful sin_ref_bounded).
Defined.

(** X20: in every financial row the stored gross profit is between 35%
    and 45% of the stored revenue and the stored net profit between 5% and
    25% of it, a cent of rounding apart. *)
Theorem financial_margins (R : RandomSource) np_sin (s : rstate R) :
  lawful R -> sine_bounded np_sin ->
  exists df s',
    generate_financial_data R np_sin s = Returns (df, s') /\
    Forall (fun r =>
      (0.35 * Financial.Revenue r - 0.01 <= Financial.Gross_Profit r /\
       Financial.Gross_Profit r <= 0.45 * Financial.Revenue r + 0.01 /\
       0.05 * Financial.Revenue r - 0.01 <= Financial.Net_Profit r /\
       Financial.Net_Profit r <= 0.25 * Financial.Revenue r + 0.01)%Q) (rows df).
Proof.
  intros HR Hsin. apply financial_rows_all; [assumption|assumption|].
  intros im r (Hi & x & -> & Hx).
  destruct Hx as (_ & _ & C1 & C2 & O1 & O2 & _).
  unfold financial_round.
  cbn [Financial.Revenue Financial.Gross_Profit Financial.Net_Profit].
  destruct (py_round2_near (raw_revenue x)) as [N1 N2].
  destruct (py_round2_near (raw_revenue x - raw_cogs x)) as [N3 N4].
  destruct (py_round2_near (raw_revenue x - raw_cogs x - raw_opex x)) as [N5 N6].
  repeat split; lra.
Qed.

Lemma financial_margins_witness :
  lawful tape /\ sine_bounded sin_ref /\
  exists df s',
    generate_financial_data tape sin_ref [91; 92; 93] = Returns (df, s') /\
    Forall (fun r =>
      (0.35 * Financial.Revenue r - 0.01 <= Financial.Gross_Profit r /\
       Financial.Gross_Profit r <= 0.45 * Financial.Revenue r + 0.01 /\
       0.05 * Financial.Revenue r - 0.01 <= Financial.Net_Profit r /\
       Financial.Net_Profit r <= 0.25 * Financial.Revenue r + 0.01)%Q) (rows df).
Proof.
  split; [exact tape_lawful|]. split; [exact sin_ref_bounded|].
  apply (financial_margins tape sin_ref [91; 92; 93] tape_lawful sin_ref_bounded).
Defined.

(** ** Customers *)

(** X11: in every customer row the signup date is from 2020-01-01 to
    2023-12-31, the purchases are from 1 to 50, the stored average order
    value from 50 to 500, the days since the last purchase from 0 to 365,
    the satisfaction score from 1 to 5, the support tickets from 0 to 10,
    and the segment one of the three of the code. *)
Theorem customer_field_ranges (R : RandomSource) (n : Z) (s : rstate R) :
  lawful R ->
  exists df s',
    generate_customer_data R n s = Returns (df, s') /\
    Forall (fun r =>
      datetime 2020 1 1 <= Customer.Signup_Date r <= datetime 2023 12 31 /\
      1 <= Customer.Total_Purchases r <= 50 /\
      (50 <= Customer.Avg_Order_Value r /\ Customer.Avg_Order_Value r <= 500)%Q /\
      0 <= Customer.Days_Since_Last_Purchase r <= 365 /\
      1 <= Customer.Satisfaction_Score r <= 5 /\
      0 <= Customer.Support_Tickets r <= 10 /\
      In (Customer.Segment r) ["High Value"; "Medium Value"; "Low Value"]%string)
      (rows df).
Proof.
  intros HR. apply customer_rows_all; [assumption|].
  intros i r ((_ & Hdays & _) & Hsignup & Hpurch & (a & (A1 & A2) & Havg & _)
              & Hsat & Htick & Hseg).
  assert (E : datetime 2023 12 31 = datetime 2020 1 1 + 1460)
    by (vm_compute; reflexivity).
  rewrite E. repeat (split; [assumption|]).
  split; [|repeat (split; [assumption|]); assumption].
  rewrite Havg. split.
  - apply (py_round2_ge 50). exact A1.
  - apply (py_round2_le 500). exact A2.
Qed.

Lemma customer_field_ranges_witness :
  lawful tape /\
  exists df s',
    generate_customer_data tape 2 [1460; 49; 9007199254740991; 365; 4; 10; 2]
      = Returns (df, s') /\
    Forall (fun r =>
      datetime 2020 1 1 <= Customer.Signup_Date r <= datetime 2023 12 31 /\
      1 <= Customer.Total_Purchases r <= 50 /\
      (50 <= Customer.Avg_Order_Value r /\ Customer.Avg_Order_Value r <= 500)%Q /\
      0 <= Customer.Days_Since_Last_Purchase r <= 365 /\
      1 <= Customer.Satisfaction_Score r <= 5 /\
      0 <= Customer.Support_Tickets r <= 10 /\
      In (Customer.Segment r) ["High Value"; "Medium Value"; "Low Value"]%string)
      (rows df).
Proof.
  split; [exact tape_lawful|].
  apply (customer_field_ranges tape 2
           [1460; 49; 9007199254740991; 365; 4; 10; 2] tape_lawful).
Defined.

(** X12: the stored lifetime value of a customer is the rounding of the
    purchases times the unrounded average order value: it is at least the
    stored average order value, at most 25000, and differs from the
    purchases times the stored average order value by at most half a cent
    for each purchase and half a cent more. *)
Theorem lifetime_value_close (R : RandomSource) (n : Z) (s : rstate R) :
  lawful R ->
  exists df s',
    generate_customer_data R n s = Returns (df, s') /\
    Forall (fun r =>
      (Customer.Avg_Order_Value r <= Customer.Lifetime_Value r /\
       Customer.Lifetime_Value r <= 25000 /\
       Qabs (Customer.Lifetime_Value r
             - inject_Z (Customer.Total_Purchases r) * Customer.Avg_Order_Value r)
         <= 0.005 * (inject_Z (Customer.Total_Purchases r) + 1))%Q) (rows df).
Proof.
  intros HR. apply customer_rows_all; [assumption|].
  intros i r (_ & _ & Hpurch & (a & (A1 & A2) & -> & ->) & _).
  set (p := Customer.Total_Purchases r) in *.
  assert (Hp : (1 <= inject_Z p /\ inject_Z p <= 50)%Q).
  { change 1%Q with (inject_Z 1). change 50%Q with (inject_Z 50).
    rewrite <- !Zle_Qle. lia. }
  destruct (py_round2_near a) as [N1 N2].
  destruct (py_round2_near (inject_Z p * a)) as [N3 N4].
  split; [|split].
  - apply py_round_mono; [lia|]. nra.
  - apply (py_round2_le 25000). change (inject_Z 25000) with 25000%Q. nra.
  - apply Qabs_Qle_condition. split; nra.
Qed.

Lemma lifetime_value_close_witness :
  lawful tape /\
  exists df s',
    generate_customer_data tape 2 [7; 6; 123456789; 5; 4; 3; 2] = Returns (df, s') /\
    Forall (fun r =>
      (Customer.Avg_Order_Value r <= Customer.Lifetime_Value r /\
       Customer.Lifetime_Value r <= 25000 /\
       Qabs (Customer.Lifetime_Value r
             - inject_Z (Customer.Total_Purchases r) * Customer.Avg_Order_Value r)
         <= 0.005 * (inject_Z (Customer.Total_Purchases r) + 1))%Q) (rows df).
Proof.
  split; [exact tape_lawful|].
  apply (lifetime_value_close tape 2 [7; 6; 123456789; 5; 4; 3; 2] tape_lawful).
Defined.

(** ** The script *)

(** X14: when the seed handed to [np.random.seed] is one NumPy accepts,
    from 0 to [2^32 - 1], as the 42 of the source is, the script raises
    nothing up to the point where it writes its files, whatever the state
    of the random source: it holds four data frames of 5000, 2193, 36 and
    1500 rows, the counts its last lines print.  With any other seed it
    stops on the [ValueError] of its first statement. *)
Theorem script_counts (R : RandomSource) np_sin seed (p : process R) :
  lawful R -> sine_bounded np_sin ->
  (0 <= seed < 4294967296 ->
   exists d p',
     script R np_sin seed p = Returns (d, p') /\
     List.length (rows (sales_df d)) = 5000%nat /\
     List.length (rows (operations_df d)) = 2193%nat /\
     List.length (rows (financial_df d)) = 36%nat /\
     List.length (rows (customer_df d)) = 1500%nat) /\
  (seed < 0 \/ 4294967296 <= seed ->
   script R np_sin seed p = Raises ValueError).
Proof.
  intros HR Hsin. split.
  - intro Hseed. unfold script.
    rewrite (np_random_seed_in_range R seed p Hseed).
    unfold bind, ret. cbn [random_state np_random_state].
    destruct (returns_elim R _ _ _ (sales_returns R HR 5000 (random_state R p)))
      as (sd & s1 & -> & _ & Hs).
    destruct (returns_elim R _ _ _ (operations_returns R HR 2000 s1))
      as (od & s2 & -> & _ & Ho).
    destruct (returns_elim R _ _ _ (financial_returns R HR np_sin Hsin s2))
      as (fd & s3 & -> & _ & Hf).
    destruct (returns_elim R _ _ _ (customer_returns R HR 1500 s3))
      as (cd & s4 & -> & _ & Hc).
    eexists _, _. split; [reflexivity|].
    cbn [sales_df operations_df financial_df customer_df].
    apply Forall2_length in Hs, Ho, Hf, Hc.
    rewrite range_length in Hs, Hc.
    repeat split.
    + rewrite <- Hs. reflexivity.
    + rewrite <- Ho. vm_compute. reflexivity.
    + rewrite <- Hf. vm_compute. reflexivity.
    + rewrite <- Hc. reflexivity.
  - intro Hseed. unfold script, np_random_seed.
    destruct (Z.leb_spec 0 seed); [|reflexivity].
    destruct (Z.ltb_spec seed 4294967296); [lia|reflexivity].
Qed.

Lemma script_counts_witness :
  lawful tape /\ sine_bounded sin_ref /\
  (exists d p',
     script tape sin_ref 42 (mkProcess tape 0 [71; 72; 73]) = Returns (d, p') /\
     List.length (rows (sales_df d)) = 5000%nat /\
     List.length (rows (operations_df d)) = 2193%nat /\
     List.length (rows (financial_df d)) = 36%nat /\
     List.length (rows (customer_df d)) = 1500%nat) /\
  script tape sin_ref (-1) (mkProcess tape 0 [71; 72; 73]) = Raises ValueError.
Proof.
  split; [exact tape_lawful|]. split; [exact sin_ref_bounded|]. split.
  - apply (proj1 (script_counts tape sin_ref 42 (mkProcess tape 0 [71; 72; 73])
                    tape_lawful sin_ref_bounded)). lia.
  - apply (proj2 (script_counts tape sin_ref (-1) (mkProcess tape 0 [71; 72; 73])
                    tape_lawful sin_ref_bounded)). lia.
Defined.

(** ** The tables and the dashboard *)

Lemma Qgt_bool_iff a b : Qgt_bool a b = true <-> (b < a)%Q.
Proof.
  unfold Qgt_bool. rewrite negb_true_iff. split.
  - intro H. apply Qnot_le_lt. intro L. apply Qle_bool_iff in L. congruence.
  - intro H. destruct (Qle_bool a b) eqn:E; [|reflexivity].
    apply Qle_bool_iff in E. lra.
Qed.

Lemma series_min_spec col m :
  series_min col = Some m -> In m col /\ Forall (fun x => (m <= x)%Q) col.
Proof.
  revert m. induction col as [|x l IH]; intros m H; [discriminate|].
  simpl in H. destruct (series_min l) as [m'|] eqn:E.
  - destruct (IH m' eq_refl) as [Hin Hall].
    destruct (Qle_bool x m') eqn:Hle; injection H as <-.
    + apply Qle_bool_iff in Hle. split; [now left|].
      constructor; [lra|]. eapply Forall_impl; [|exact Hall].
      intros y Hy. simpl in Hy. lra.
    + assert (m' < x)%Q by (apply Qgt_bool_iff; unfold Qgt_bool; now rewrite Hle).
      split; [now right|]. constructor; [lra|assumption].
  - injection H as <-. destruct l; [|simpl in E; destruct (series_min l); discriminate].
    split; [now left|]. constructor; [lra|constructor].
Qed.

Lemma series_max_spec col m :
  series_max col = Some m -> In m col /\ Forall (fun x => (x <= m)%Q) col.
Proof.
  revert m. induction col as [|x l IH]; intros m H; [discriminate|].
  simpl in H. destruct (series_max l) as [m'|] eqn:E.
  - destruct (IH m' eq_refl) as [Hin Hall].
    destruct (Qle_bool m' x) eqn:Hle; injection H as <-.
    + apply Qle_bool_iff in Hle. split; [now left|].
      constructor; [lra|]. eapply Forall_impl; [|exact Hall].
      intros y Hy. simpl in Hy. lra.
    + assert (x < m')%Q by (apply Qgt_bool_iff; unfold Qgt_bool; now rewrite Hle).
      split; [now right|]. constructor; [lra|assumption].
  - injection H as <-. destruct l; [|simpl in E; destruct (series_max l); discriminate].
    split; [now left|]. constructor; [lra|constructor].
Qed.

Lemma series_min_le_max col mn mx :
  series_min col = Some mn -> series_max col = Some mx -> (mn <= mx)%Q.
Proof.
  intros Hmn Hmx. destruct (series_min_spec _ _ Hmn) as [Hin _].
  destruct (series_max_spec _ _ Hmx) as [_ Hall].
  rewrite Forall_forall in Hall. now apply Hall.
Qed.

(** X15: in a column whose largest and smallest values differ,
    [get_color] paints the largest value green (#d4edda) and the smallest
    red (#f8d7da); in a column whose values are all equal it paints every
    value yellow (#fff3cd): the guard on equal extremes keeps the division
    away from zero. *)
Theorem get_color_extremes (col_data : list float) (min_val max_val : float) :
  series_min col_data = Some min_val ->
  series_max col_data = Some max_val ->
  (~ (max_val == min_val)%Q ->
     (forall val, (val == max_val)%Q -> get_color val col_data = "#d4edda"%string) /\
     (forall val, (val == min_val)%Q -> get_color val col_data = "#f8d7da"%string)) /\
  ((max_val == min_val)%Q ->
     forall val, get_color val col_data = "#fff3cd"%string).
Proof.
  intros Hmn Hmx. pose proof (series_min_le_max _ _ _ Hmn Hmx) as Hle.
  unfold get_color. rewrite Hmn, Hmx. cbv zeta. split.
  - intro Hne.
    assert (Hb : Qeq_bool max_val min_val = false).
    { destruct (Qeq_bool max_val min_val) eqn:E; [|reflexivity].
      apply Qeq_bool_iff in E. contradiction. }
    rewrite Hb. cbn [negb].
    assert (Hpos : (0 < max_val - min_val)%Q).
    { destruct (Qlt_le_dec min_val max_val) as [|Hge]; [lra|].
      exfalso. apply Hne. lra. }
    split; intros val Hval.
    + assert (G : Qgt_bool ((val - min_val) / (max_val - min_val)) 0.66 = true).
      { apply Qgt_bool_iff. apply Qlt_shift_div_l; [assumption|]. lra. }
      now rewrite G.
    + assert (L : ((val - min_val) / (max_val - min_val) <= 0)%Q).
      { apply Qle_shift_div_r; [assumption|]. lra. }
      assert (G1 : Qgt_bool ((val - min_val) / (max_val - min_val)) 0.66 = false).
      { destruct (Qgt_bool _ 0.66) eqn:E; [|reflexivity].
        apply Qgt_bool_iff in E. lra. }
      assert (G2 : Qgt_bool ((val - min_val) / (max_val - min_val)) 0.33 = false).
      { destruct (Qgt_bool _ 0.33) eqn:E; [|reflexivity].
        apply Qgt_bool_iff in E. lra. }
      now rewrite G1, G2.
  - intros Heq val. apply Qeq_bool_iff in Heq. rewrite Heq. reflexivity.
Qed.

Lemma get_color_extremes_witness :
  series_min [3; 1; 2]%Q = Some 1%Q /\
  series_max [3; 1; 2]%Q = Some 3%Q /\
  (~ (3 == 1)%Q ->
     (forall val, (val == 3)%Q -> get_color val [3; 1; 2]%Q = "#d4edda"%string) /\
     (forall val, (val == 1)%Q -> get_color val [3; 1; 2]%Q = "#f8d7da"%string)) /\
  ((3 == 1)%Q -> forall val, get_color val [3; 1; 2]%Q = "#fff3cd"%string).
Proof.
  split; [reflexivity|]. split; [reflexivity|].
  apply (get_color_extremes [3; 1; 2]%Q 1%Q 3%Q); reflexivity.
Defined.

(** X16: [get_color] answers one of its three colours, and a larger value
    never gets a colour nearer to red than a smaller value of the same
    column. *)
Theorem get_color_monotone (col_data : list float) (v1 v2 : float) :
  (v1 <= v2)%Q ->
  In (get_color v1 col_data) ["#f8d7da"; "#fff3cd"; "#d4edda"]%string /\
  (color_rank (get_color v1 col_data) <= color_rank (get_color v2 col_data))%nat.
Proof.
  intro Hv. unfold get_color.
  destruct (series_min col_data) as [mn|] eqn:Hmn;
    [|split; [now left|apply le_n]].
  destruct (series_max col_data) as [mx|] eqn:Hmx;
    [|split; [now left|apply le_n]].
  pose proof (series_min_le_max _ _ _ Hmn Hmx) as Hle. cbv zeta.
  destruct (Qeq_bool mx mn) eqn:Hb; cbn [negb].
  - split; [right; now left|apply le_n].
  - assert (Hpos : (0 < mx - mn)%Q).
    { destruct (Qlt_le_dec mn mx) as [|Hge]; [lra|].
      assert (E : (mx == mn)%Q) by lra.
      apply Qeq_bool_iff in E. congruence. }
    assert (Hn : ((v1 - mn) / (mx - mn) <= (v2 - mn) / (mx - mn))%Q).
    { apply Qle_shift_div_l; [assumption|].
      setoid_replace ((v1 - mn) / (mx - mn) * (mx - mn))%Q with (v1 - mn)%Q
        by (field; lra).
      lra. }
    set (n1 := ((v1 - mn) / (mx - mn))%Q) in *.
    set (n2 := ((v2 - mn) / (mx - mn))%Q) in *.
    destruct (Qgt_bool n1 0.66) eqn:A1; destruct (Qgt_bool n1 0.33) eqn:A2;
      destruct (Qgt_bool n2 0.66) eqn:B1; destruct (Qgt_bool n2 0.33) eqn:B2;
      (split; [cbn; tauto|]);
      try (vm_compute; lia);
      exfalso;
      repeat match goal with
             | H : Qgt_bool _ _ = true |- _ => apply Qgt_bool_iff in H
             | H : Qgt_bool ?a ?b = false |- _ =>
                 assert (a <= b)%Q
                   by (apply Qnot_lt_le; intro L; apply Qgt_bool_iff in L;
                       congruence);
                 clear H
             end; lra.
Qed.

Lemma get_color_monotone_witness :
  (2 <= 3)%Q /\
  In (get_color 2%Q [3; 1; 2]%Q) ["#f8d7da"; "#fff3cd"; "#d4edda"]%string /\
  (color_rank (get_color 2%Q [3; 1; 2]%Q)
   <= color_rank (get_color 3%Q [3; 1; 2]%Q))%nat.
Proof.
  split; [discriminate|].
  apply (get_color_monotone [3; 1; 2]%Q 2%Q 3%Q). discriminate.
Defined.

(** X17: the detailed table colours the profit of every row that
    [generate_sales_data] can produce green (#d4edda): its red branch is
    never taken on the generated data. *)
Theorem generated_profit_is_green (R : RandomSource) (n : Z) (s : rstate R) :
  lawful R ->
  exists df s',
    generate_sales_data R n s = Returns (df, s') /\
    Forall (fun r => profit_color (Sales.Profit r) = "#d4edda"%string) (rows df).
Proof.
  intros HR. apply sales_rows_all; [assumption|].
  intros i r Hr. destruct (sales_row_amounts i r Hr) as (_ & _ & _ & _ & Hp & _).
  unfold profit_color.
  assert (G : Qgt_bool (Sales.Profit r) 0 = true) by (apply Qgt_bool_iff; lra).
  now rewrite G.
Qed.

Lemma generated_profit_is_green_witness :
  lawful tape /\
  exists df s',
    generate_sales_data tape 3 [81; 82; 83; 84] = Returns (df, s') /\
    Forall (fun r => profit_color (Sales.Profit r) = "#d4edda"%string) (rows df).
Proof.
  split; [exact tape_lawful|].
  apply (generated_profit_is_green tape 3 [81; 82; 83; 84] tape_lawful).
Defined.

Lemma inject_Z_pct lo hi c :
  lo <= c <= hi -> (inject_Z lo <= inject_Z c /\ inject_Z c <= inject_Z hi)%Q.
Proof. intro H. rewrite <- !Zle_Qle. lia. Qed.

(** X19: in the what-if panel, for every position of the price and volume
    sliders (from -50 to 50) and a sum of sales of a cent or more, the
    projected sales are positive, so that the margin shown is the quotient
    of the projected profit by the projected sales and never the fallback
    0, and the projected sales are those with the volume slider at 0 times
    the volume factor.  Nothing is stated of how the projected profit and
    margin move with the sliders: they come out of differences of doubles,
    which the exact arithmetic of this development does not follow. *)
Theorem what_if_projected_sales (base_sales base_profit : float)
    (price_change volume_change cost_change : Z) :
  (0.01 <= base_sales)%Q ->
  -50 <= price_change <= 50 -> -50 <= volume_change <= 50 ->
  let w := what_if base_sales base_profit price_change volume_change cost_change in
  let w0 := what_if base_sales base_profit price_change 0 cost_change in
  let v := (1 + inject_Z volume_change / 100)%Q in
  (0 < new_sales w /\
   new_sales w == v * new_sales w0 /\
   margin w == new_profit w / new_sales w * 100)%Q.
Proof.
  intros Hpos Hp Hv w w0 v.
  apply (inject_Z_pct (-50) 50) in Hp. apply (inject_Z_pct (-50) 50) in Hv.
  change (inject_Z (-50)) with (-50)%Q in *. change (inject_Z 50) with 50%Q in *.
  remember (inject_Z price_change) as p eqn:Dp.
  remember (inject_Z volume_change) as q eqn:Dq.
  destruct Hp as [Hp1 Hp2]. destruct Hv as [Hv1 Hv2].
  assert (Hpm : (0 < 1 + p / 100)%Q).
  { setoid_replace (1 + p / 100)%Q with ((100 + p) / 100)%Q by field.
    apply Qlt_shift_div_l; lra. }
  assert (Hvm : (0 < 1 + q / 100)%Q).
  { setoid_replace (1 + q / 100)%Q with ((100 + q) / 100)%Q by field.
    apply Qlt_shift_div_l; lra. }
  assert (H0 : (0 < base_sales * (1 + p / 100))%Q)
    by (apply Qmult_lt_0_compat; [lra|assumption]).
  assert (S : (0 < new_sales w)%Q).
  { unfold w, what_if. cbn [new_sales]. rewrite <- Dp, <- Dq.
    apply Qmult_lt_0_compat; assumption. }
  split; [exact S|]. split.
  - unfold w, w0, what_if, v. cbn [new_sales]. rewrite <- Dp, <- Dq.
    change (inject_Z 0) with 0%Q. field.
  - unfold w, what_if in *. cbn [margin new_sales new_profit] in *.
    apply Qgt_bool_iff in S. rewrite S. reflexivity.
Qed.

Lemma what_if_projected_sales_witness :
  (0.01 <= 1000)%Q /\ -50 <= 10 <= 50 /\ -50 <= -25 <= 50 /\
  let w := what_if 1000 200 10 (-25) 5 in
  let w0 := what_if 1000 200 10 0 5 in
  let v := (1 + inject_Z (-25) / 100)%Q in
  (0 < new_sales w /\
   new_sales w == v * new_sales w0 /\
   margin w == new_profit w / new_sales w * 100)%Q.
Proof.
  split; [discriminate|]. split; [lia|]. split; [lia|].
  apply (what_if_projected_sales 1000%Q 200%Q 10 (-25) 5); [discriminate|lia|lia].
Defined.
